(** * The dataflow graph core of qtpynodeeditor, embedded in Rocq

    The development follows the Python sources:
    - [nodeeditor/node_data.py]            NodeDataType, NodeData, NodeDataModel
    - [nodeeditor/examples/calculator.py]  the calculator data and models
    - [qtpynodeeditor/port.py]             Port
    - [nodeeditor/flow_scene.py]           FlowScene

    Python objects are mutated in place and exceptions leave the mutations
    made so far; methods are therefore state transformers that return either
    a value or a raised exception together with the state reached.

    [connection.py], [node.py], [node_state.py], [type_converter.py],
    [data_model_registry.py] and [enums.py] are not among the sources.  What
    the sources call in them is modelled from the specification and marked
    so.  [PortType.In]/[PortType.Out] of flow_scene.py and
    [PortType.input]/[PortType.output] of the other modules are read as the
    same two members of the enumeration. *)

From Stdlib Require Import ZArith List String Bool Lia.
From Stdlib Require Import Floats.SpecFloat.
Import ListNotations.
Open Scope string_scope.

(** ** Python values, exceptions and the state/exception monad *)

Module Py.

Inductive exn : Type :=
| TypeError | ValueError | KeyError | IndexError | AttributeError
| RuntimeError | OverflowError | ZeroDivisionError.

Inductive result (A : Type) : Type :=
| Ok (a : A)
| Raise (e : exn).
Arguments Ok {A} a.
Arguments Raise {A} e.

Definition is_ok {A} (r : result A) : bool :=
  match r with Ok _ => true | Raise _ => false end.

(** A method of an object of type [S]: runs on the object's state and
    leaves a (possibly mutated) state, also when it raises. *)
Definition M (S A : Type) : Type := S -> result A * S.

Definition ret {S A} (a : A) : M S A := fun s => (Ok a, s).
Definition raise {S A} (e : exn) : M S A := fun s => (Raise e, s).
Definition bind {S A B} (c : M S A) (k : A -> M S B) : M S B :=
  fun s => match c s with
           | (Ok a, s') => k a s'
           | (Raise e, s') => (Raise e, s')
           end.
Definition get {S} : M S S := fun s => (Ok s, s).
Definition modify {S} (f : S -> S) : M S unit := fun s => (Ok tt, f s).
Definition lift {S A} (r : result A) : M S A := fun s => (r, s).

(** [for x in xs: body x] *)
Fixpoint for_each {S A} (xs : list A) (body : A -> M S unit) : M S unit :=
  match xs with
  | [] => ret tt
  | x :: rest => bind (body x) (fun _ => for_each rest body)
  end.

(** Python's [float]: IEEE 754 binary64, with the Standard Library's
    executable specification of floating-point arithmetic. *)
Definition float : Type := spec_float.
Definition prec : Z := 53.
Definition emax : Z := 1024.

Definition float_of_Z (z : Z) : float := binary_normalize prec emax z 0 false.

(** [float(n)] on an [int]: an integer too large for a float is an
    [OverflowError]. *)
Definition float_of_int (z : Z) : result float :=
  match float_of_Z z with
  | S754_infinity _ => Raise OverflowError
  | f => Ok f
  end.
Definition fadd : float -> float -> float := SFadd prec emax.
Definition fsub : float -> float -> float := SFsub prec emax.
Definition fmul : float -> float -> float := SFmul prec emax.
Definition fdiv : float -> float -> float := SFdiv prec emax.
Definition feqb : float -> float -> bool := SFeqb.
Definition fzero : float := S754_zero false.

(** [int(x)] on a float: truncation towards zero. *)
Definition int_of_float (f : float) : result Z :=
  match f with
  | S754_zero _ => Ok 0%Z
  | S754_infinity _ => Raise OverflowError
  | S754_nan => Raise ValueError
  | S754_finite s m e =>
      let a := match e with
               | Z0 => Zpos m
               | Zpos p => Z.shiftl (Zpos m) (Zpos p)
               | Zneg p => Z.shiftr (Zpos m) (Zpos p)
               end in
      Ok (if s then Z.opp a else a)
  end.

End Py.
Import Py.

Declare Scope py_scope.
Delimit Scope py_scope with py.
Notation "x <- c1 ;; c2" := (bind c1 (fun x => c2))
  (at level 61, c1 at next level, right associativity) : py_scope.
Notation "c1 ;; c2" := (bind c1 (fun _ => c2))
  (at level 61, right associativity) : py_scope.
Open Scope py_scope.

(** ** nodeeditor/node_data.py *)

(** [PortIndex = int] *)
Definition PortIndex : Type := Z.

Inductive PortType : Type := PortType_none | PortType_input | PortType_output.
Inductive ConnectionPolicy : Type := ConnectionPolicy_one | ConnectionPolicy_many.
Inductive NodeValidationState : Type := valid | warning | error.

(** [NodeDataType(id, name)]; both fields may hold [None]. *)
Record NodeDataType : Type := mkNodeDataType {
  id : option string;
  name : option string
}.

Module NodeDataClass.

(** What a class body can bind to the class attribute [data_type]. *)
Inductive attr : Type :=
| AttrNone
| AttrType (t : NodeDataType).

(** [class NodeData: data_type = NodeDataType(None, None)] *)
Definition NodeData_data_type : attr := AttrType (mkNodeDataType None None).

(** A class statement deriving from [NodeData]: its body either binds
    [data_type] or omits it. *)
Record class_body : Type := mkClass {
  declares_data_type : option attr
}.

(** [cls.data_type], looked up along the method resolution order: the
    bases between the class and [NodeData], nearest first, and [NodeData]
    itself last. *)
Fixpoint lookup_data_type (bases : list class_body) : attr :=
  match bases with
  | [] => NodeData_data_type
  | b :: rest =>
      match declares_data_type b with
      | Some a => a
      | None => lookup_data_type rest
      end
  end.

Definition cls_data_type (cls : class_body) (bases : list class_body) : attr :=
  lookup_data_type (cls :: bases).

(** [NodeData.__init_subclass__] *)
Definition __init_subclass__ (cls : class_body) (bases : list class_body)
  : result unit :=
  match cls_data_type cls bases with
  | AttrNone => Raise ValueError
  | AttrType _ => Ok tt
  end.

(** Each base is accepted by [__init_subclass__] with the bases after it.
    This holds of a chain of classes, each deriving from the next and the
    last from NodeData: the class statement of each went through
    [__init_subclass__] with just these bases. *)
Fixpoint bases_created (bases : list class_body) : Prop :=
  match bases with
  | [] => True
  | b :: rest => __init_subclass__ b rest = Ok tt /\ bases_created rest
  end.

Definition omits_data_type (c : class_body) : Prop :=
  declares_data_type c = None.

End NodeDataClass.

(** ** nodeeditor/examples/calculator.py: the data *)

Inductive NodeData : Type :=
| DecimalData (_number : float)
| IntegerData (_number : Z).

Definition DecimalData_data_type : NodeDataType :=
  mkNodeDataType (Some "decimal") (Some "Decimal").
Definition IntegerData_data_type : NodeDataType :=
  mkNodeDataType (Some "integer") (Some "Integer").

Definition data_type_of (d : NodeData) : NodeDataType :=
  match d with
  | DecimalData _ => DecimalData_data_type
  | IntegerData _ => IntegerData_data_type
  end.

(** [NodeData.same_type] *)
Definition same_type (a b : NodeData) : bool :=
  match id (data_type_of a), id (data_type_of b) with
  | Some x, Some y => String.eqb x y
  | None, None => true
  | _, _ => false
  end.

(** The value of the expression [data.number].  [DecimalData.number] is a
    property and yields the float; [IntegerData.number] is a plain method,
    so the attribute is the bound method, not the integer. *)
Inductive number_attr : Type :=
| NumFloat (f : float)
| NumBoundMethod (returns : Z).

Definition attr_number (data : option NodeData) : result number_attr :=
  match data with
  | None => Raise AttributeError
  | Some (DecimalData f) => Ok (NumFloat f)
  | Some (IntegerData z) => Ok (NumBoundMethod z)
  end.

(** [float(x)] and [int(x)] on such a value *)
Definition py_float (x : number_attr) : result float :=
  match x with
  | NumFloat f => Ok f
  | NumBoundMethod _ => Raise TypeError
  end.

Definition py_int (x : number_attr) : result Z :=
  match x with
  | NumFloat f => int_of_float f
  | NumBoundMethod _ => Raise TypeError
  end.

(** [x + y], [x - y], [x * y], [x / y] and [x == 0.0] *)
Definition py_arith (op : float -> float -> float) (x y : number_attr)
  : result float :=
  match x, y with
  | NumFloat a, NumFloat b => Ok (op a b)
  | _, _ => Raise TypeError
  end.

Definition py_truediv (x y : number_attr) : result float :=
  match x, y with
  | NumFloat a, NumFloat b =>
      if feqb b fzero then Raise ZeroDivisionError else Ok (fdiv a b)
  | _, _ => Raise TypeError
  end.

Definition py_eq_zero (x : number_attr) : bool :=
  match x with
  | NumFloat f => feqb f fzero
  | NumBoundMethod _ => false
  end.

Definition bind_result {A B} (r : result A) (k : A -> result B) : result B :=
  match r with
  | Ok a => k a
  | Raise e => Raise e
  end.

(** [integer_to_decimal_converter] and [decimal_to_integer_converter] *)
Definition integer_to_decimal_converter (data : option NodeData)
  : result NodeData :=
  bind_result (attr_number data) (fun n =>
  bind_result (py_float n) (fun f => Ok (DecimalData f))).

Definition decimal_to_integer_converter (data : option NodeData)
  : result NodeData :=
  bind_result (attr_number data) (fun n =>
  bind_result (py_int n) (fun z => Ok (IntegerData z))).

(** ** JSON documents, as Python sees them after [json.loads] *)

#[local] Unset Elimination Schemes.
Inductive json : Type :=
| JNull
| JBool (b : bool)
| JInt (z : Z)
| JFloat (f : float)
| JStr (s : string)
| JArr (items : list json)
| JObj (fields : list (string * json)).
#[local] Set Elimination Schemes.

Fixpoint assoc {A} (k : string) (l : list (string * A)) : option A :=
  match l with
  | [] => None
  | (k', v) :: rest => if String.eqb k k' then Some v else assoc k rest
  end.

(** [d[key]] with a string key *)
Definition getitem (d : json) (key : string) : result json :=
  match d with
  | JObj fields =>
      match assoc key fields with
      | Some v => Ok v
      | None => Raise KeyError
      end
  | _ => Raise TypeError
  end.

(** [d.get(key, None)] *)
Definition dict_get (d : json) (key : string) : result json :=
  match d with
  | JObj fields =>
      match assoc key fields with
      | Some v => Ok v
      | None => Ok JNull
      end
  | _ => Raise AttributeError
  end.

Fixpoint chars (s : string) : list json :=
  match s with
  | EmptyString => []
  | String c rest => JStr (String c EmptyString) :: chars rest
  end.

(** [for x in d] *)
Definition iterate (d : json) : result (list json) :=
  match d with
  | JArr items => Ok items
  | JObj fields => Ok (map (fun kv => JStr (fst kv)) fields)
  | JStr s => Ok (chars s)
  | _ => Raise TypeError
  end.

(** What the program reads from outside: the text-to-float conversion of
    [float(str)], the parser [json.loads], the files on disk, and the
    float-to-text conversion of ['%g' % x]. *)
Record Env : Type := mkEnv {
  float_of_str : string -> option float;
  json_loads : string -> option json;
  read_file : string -> option string;
  format_g : float -> string
}.

(** ** nodeeditor/examples/calculator.py: the models

    The models' [data_updated] emissions are recorded.  The one signal
    the models themselves connect, [textChanged] of the line edit of a
    number source, is followed to its slot.  [ModuloModel] is left out: its
    [compute] wraps a float in an IntegerData, which [NodeData] as embedded
    here does not hold. *)

(** The text of a widget: a literal, or [number_as_text()] of a datum. *)
Inductive text : Type :=
| Literal (s : string)
| NumberAsText (d : NodeData).

Module MathOperationDataModel.

Inductive subclass : Type :=
| AdditionModel | SubtractionModel | MultiplicationModel | DivisionModel.

(** [data_updated] holds the emissions of the signal of that name, oldest
    first. *)
Record t : Type := mk {
  cls : subclass;
  _number1 : option NodeData;
  _number2 : option NodeData;
  _result : option NodeData;
  _validation_state : NodeValidationState;
  _validation_message : string;
  data_updated : list PortIndex
}.

Definition __init__ (c : subclass) : t :=
  mk c None None None warning "Uninitialized" [].

Definition name (c : subclass) : string :=
  match c with
  | AdditionModel => "Addition"
  | SubtractionModel => "Subtraction"
  | MultiplicationModel => "Multiplication"
  | DivisionModel => "Division"
  end.

Definition n_ports (port_type : PortType) : result Z :=
  match port_type with
  | PortType_input => Ok 2%Z
  | PortType_output => Ok 1%Z
  | PortType_none => Raise ValueError
  end.

Definition set_number1 (d : option NodeData) : M t unit :=
  modify (fun s => mk (cls s) d (_number2 s) (_result s)
                      (_validation_state s) (_validation_message s)
                      (data_updated s)).
Definition set_number2 (d : option NodeData) : M t unit :=
  modify (fun s => mk (cls s) (_number1 s) d (_result s)
                      (_validation_state s) (_validation_message s)
                      (data_updated s)).
Definition set_result (d : option NodeData) : M t unit :=
  modify (fun s => mk (cls s) (_number1 s) (_number2 s) d
                      (_validation_state s) (_validation_message s)
                      (data_updated s)).
Definition set_validation_state (v : NodeValidationState) : M t unit :=
  modify (fun s => mk (cls s) (_number1 s) (_number2 s) (_result s)
                      v (_validation_message s) (data_updated s)).
Definition set_validation_message (msg : string) : M t unit :=
  modify (fun s => mk (cls s) (_number1 s) (_number2 s) (_result s)
                      (_validation_state s) msg (data_updated s)).
Definition emit_data_updated (i : PortIndex) : M t unit :=
  modify (fun s => mk (cls s) (_number1 s) (_number2 s) (_result s)
                      (_validation_state s) (_validation_message s)
                      (data_updated s ++ [i])).

(** [x is not None and x.data_type.id in ('Decimal', 'integer')] *)
Definition number_ok (x : option NodeData) : bool :=
  match x with
  | None => false
  | Some d =>
      match id (data_type_of d) with
      | Some i => String.eqb i "Decimal" || String.eqb i "integer"
      | None => false
      end
  end.

Definition _check_inputs : M t bool :=
  self <- get ;;
  let number1_ok := number_ok (_number1 self) in
  let number2_ok := number_ok (_number2 self) in
  if negb number1_ok || negb number2_ok then
    set_validation_state warning ;;
    set_validation_message "Missing or incorrect inputs" ;;
    set_result None ;;
    emit_data_updated 0%Z ;;
    ret false
  else
    set_validation_state valid ;;
    set_validation_message "" ;;
    ret true.

(** [not x] on an input slot: [None] is false, a [NodeData] object is
    true (the classes define neither [__bool__] nor [__len__]). *)
Definition falsy (x : option NodeData) : bool :=
  match x with None => true | Some _ => false end.

(** [with self._compute_lock(): body] *)
Definition _compute_lock (body : M t unit) : M t unit :=
  self <- get ;;
  if falsy (_number1 self) || falsy (_number2 self) then
    raise RuntimeError
  else
    body ;;
    emit_data_updated 0%Z.

Definition binary (op : float -> float -> float) : M t unit :=
  self <- get ;;
  a <- lift (attr_number (_number1 self)) ;;
  b <- lift (attr_number (_number2 self)) ;;
  r <- lift (py_arith op a b) ;;
  set_result (Some (DecimalData r)).

Definition compute : M t unit :=
  self <- get ;;
  match cls self with
  | AdditionModel => binary fadd
  | MultiplicationModel => binary fmul
  | SubtractionModel =>
      set_validation_state valid ;;
      set_validation_message "" ;;
      binary fsub
  | DivisionModel =>
      divisor <- lift (attr_number (_number2 self)) ;;
      if py_eq_zero divisor then
        set_validation_state error ;;
        set_validation_message "Division by zero error" ;;
        set_result None
      else
        set_validation_state valid ;;
        set_validation_message "" ;;
        a <- lift (attr_number (_number1 self)) ;;
        b <- lift (attr_number (_number2 self)) ;;
        r <- lift (py_truediv a b) ;;
        set_result (Some (DecimalData r))
  end.

Definition set_in_data (data : option NodeData) (port_index : PortIndex)
  : M t unit :=
  (if Z.eqb port_index 0 then set_number1 data
   else if Z.eqb port_index 1 then set_number2 data
   else ret tt) ;;
  ok <- _check_inputs ;;
  if ok then _compute_lock compute else ret tt.

Definition out_data (self : t) (port : PortIndex) : option NodeData :=
  _result self.

Definition validation_state (self : t) : NodeValidationState :=
  _validation_state self.

Definition validation_message (self : t) : string :=
  _validation_message self.

End MathOperationDataModel.

Module NumberSourceDataModel.

(** [_line_edit] holds the text of the line edit. *)
Record t : Type := mk {
  _number : option NodeData;
  _line_edit : string;
  data_updated : list PortIndex
}.

Definition n_ports (port_type : PortType) : result Z :=
  match port_type with
  | PortType_input => Ok 0%Z
  | PortType_output => Ok 1%Z
  | PortType_none => Raise ValueError
  end.

(** The slot [on_text_edited]: it reads the text of the line edit, not
    its argument.  The [except] branch reads [self._data_invalidated], an
    attribute that no class defines. *)
Definition on_text_edited (env : Env) (changed : string) : M t unit :=
  self <- get ;;
  match float_of_str env (_line_edit self) with
  | None => raise AttributeError
  | Some number =>
      modify (fun s => mk (Some (DecimalData number)) (_line_edit s)
                          (data_updated s ++ [0%Z]))
  end.

(** [self._line_edit.setText(shown)], with the line edit as Qt has it: the
    text is replaced and, when that changed it, [textChanged] runs the
    connected slot [on_text_edited] before [setText] returns.  An exception
    of the slot is not raised to the caller of [setText].  A user who
    edits the text reaches the slot the same way. *)
Definition setText (env : Env) (shown : string) : M t unit :=
  fun self =>
    if String.eqb (_line_edit self) shown then (Ok tt, self)
    else
      (Ok tt,
       snd (on_text_edited env shown
              (mk (_number self) shown (data_updated self)))).

(** [__init__]: the line edit starts empty, [textChanged] is connected,
    and [setText("0.0")] then makes the slot read [float("0.0")]. *)
Definition __init__ : t :=
  mk (Some (DecimalData (S754_zero false))) "0.0" [0%Z].

(** [save]: [doc = super().save()], then the number if there is one. *)
Definition save (self : t) : result (list (string * json)) :=
  match _number self with
  | None => Ok []
  | Some d =>
      bind_result (attr_number (Some d)) (fun n =>
      match n with
      | NumFloat f => Ok [("number", JFloat f)]
      | NumBoundMethod _ => Raise TypeError
      end)
  end.

(** [float(state["number"])] *)
Definition float_of_json (env : Env) (v : json) : result float :=
  match v with
  | JFloat f => Ok f
  | JInt z => float_of_int z
  | JBool b => Ok (float_of_Z (if b then 1 else 0))
  | JStr s =>
      match float_of_str env s with
      | Some f => Ok f
      | None => Raise ValueError
      end
  | _ => Raise TypeError
  end.

(** [restore]: every exception of the conversion is swallowed;
    otherwise the number is stored and written into the line edit as
    [number_as_text()], that is ['%g' % number]. *)
Definition restore (env : Env) (state : json) : M t unit :=
  match bind_result (getitem state "number") (float_of_json env) with
  | Raise _ => ret tt
  | Ok value =>
      modify (fun s => mk (Some (DecimalData value)) (_line_edit s)
                          (data_updated s)) ;;
      setText env (format_g env value)
  end.

Definition out_data (self : t) (port : PortIndex) : option NodeData :=
  _number self.

End NumberSourceDataModel.

Module NumberDisplayModel.

Record t : Type := mk {
  _number : option NodeData;
  _label : text;
  _validation_state : NodeValidationState;
  _validation_message : string
}.

Definition __init__ : t := mk None (Literal EmptyString) warning "Uninitialized".

Definition n_ports (port_type : PortType) : result Z :=
  match port_type with
  | PortType_input => Ok 1%Z
  | PortType_output => Ok 0%Z
  | PortType_none => Raise ValueError
  end.

Definition set_in_data (data : option NodeData) (port_index : PortIndex)
  : M t unit :=
  match data with
  | Some d =>
      if MathOperationDataModel.number_ok data then
        modify (fun _ => mk data (NumberAsText d) valid "")
      else
        modify (fun _ => mk data (Literal "") warning
                            "Missing or incorrect inputs")
  | None =>
      modify (fun _ => mk data (Literal "") warning
                          "Missing or incorrect inputs")
  end.

End NumberDisplayModel.

(** The node data models of the calculator behind the one interface of
    [NodeDataModel]. *)
Inductive NodeDataModel : Type :=
| Math (m : MathOperationDataModel.t)
| Source (m : NumberSourceDataModel.t)
| Display (m : NumberDisplayModel.t).

Module Model.

Definition model_name (m : NodeDataModel) : string :=
  match m with
  | Math x => MathOperationDataModel.name (MathOperationDataModel.cls x)
  | Source _ => "NumberSource"
  | Display _ => "NumberDisplay"
  end.

Definition n_ports (m : NodeDataModel) (port_type : PortType) : result Z :=
  match m with
  | Math _ => MathOperationDataModel.n_ports port_type
  | Source _ => NumberSourceDataModel.n_ports port_type
  | Display _ => NumberDisplayModel.n_ports port_type
  end.

(** [range(model.n_ports(port_type))] *)
Definition port_range (m : NodeDataModel) (port_type : PortType)
  : result (list nat) :=
  bind_result (n_ports m port_type) (fun n => Ok (seq 0 (Z.to_nat n))).

(** Every model of the calculator answers [DecimalData.data_type]. *)
Definition data_type (m : NodeDataModel) (port_type : PortType)
  (port_index : PortIndex) : NodeDataType := DecimalData_data_type.

(** Only [NodeDataModel] defines it. *)
Definition port_out_connection_policy (m : NodeDataModel)
  (port_index : PortIndex) : ConnectionPolicy := ConnectionPolicy_many.

(** [NumberSourceDataModel] inherits the empty [set_in_data]. *)
Definition set_in_data (data : option NodeData) (port_index : PortIndex)
  : M NodeDataModel unit :=
  fun m => match m with
           | Math x =>
               let (r, x') := MathOperationDataModel.set_in_data data port_index x in
               (r, Math x')
           | Source _ => (Ok tt, m)
           | Display x =>
               let (r, x') := NumberDisplayModel.set_in_data data port_index x in
               (r, Display x')
           end.

(** [NumberDisplayModel] inherits the empty [out_data]. *)
Definition out_data (m : NodeDataModel) (port : PortIndex) : option NodeData :=
  match m with
  | Math x => MathOperationDataModel.out_data x port
  | Source x => NumberSourceDataModel.out_data x port
  | Display _ => None
  end.

(** [NumberSourceDataModel] and [NumberDisplayModel] inherit
    [validation_state] of [NodeDataModel], which answers [valid]. *)
Definition validation_state (m : NodeDataModel) : NodeValidationState :=
  match m with
  | Math x => MathOperationDataModel.validation_state x
  | Source _ => valid
  | Display _ => valid
  end.

Definition save (m : NodeDataModel) : result (list (string * json)) :=
  match m with
  | Source x => NumberSourceDataModel.save x
  | _ => Ok []
  end.

(** [NodeDataModel.__getstate__] *)
Definition __getstate__ (m : NodeDataModel) : result json :=
  bind_result (save m) (fun fields =>
    Ok (JObj (("name", JStr (model_name m)) :: fields))).

Definition restore (env : Env) (doc : json) : M NodeDataModel unit :=
  fun m => match m with
           | Source x =>
               let (r, x') := NumberSourceDataModel.restore env doc x in
               (r, Source x')
           | _ => (Ok tt, m)
           end.

End Model.

(** ** Connections and type converters *)

Definition Uuid : Type := string.

Inductive converter_fn : Type :=
| integer_to_decimal
| decimal_to_integer.

Definition call_converter (fn : converter_fn) : option NodeData -> result NodeData :=
  match fn with
  | integer_to_decimal => integer_to_decimal_converter
  | decimal_to_integer => decimal_to_integer_converter
  end.

(** Modelled from the spec: a converter is a function from [NodeData] to
    [NodeData] registered for a (source type, destination type) pair;
    [DefaultTypeConverter] converts nothing. *)
Inductive TypeConverter : Type :=
| DefaultTypeConverter
| Registered (source destination : NodeDataType) (fn : converter_fn).

(** Modelled from the spec: a complete connection, a directed edge
    [{out_node, out_port_index, in_node, in_port_index, converter}].  A
    node is named by its key in [FlowScene._nodes]; [conn_id] stands for the
    identity of the Python object. *)
Record Connection : Type := mkConnection {
  conn_id : nat;
  in_node : Uuid;
  in_index : PortIndex;
  out_node : Uuid;
  out_index : PortIndex;
  converter : option TypeConverter
}.

Definition same_connection (a b : Connection) : bool :=
  Nat.eqb (conn_id a) (conn_id b).

(** [c in l] and [l.remove(c)] on a list of connections *)
Definition contains (c : Connection) (l : list Connection) : bool :=
  existsb (same_connection c) l.

Fixpoint list_remove (c : Connection) (l : list Connection)
  : result (list Connection) :=
  match l with
  | [] => Raise ValueError
  | x :: rest =>
      if same_connection x c then Ok rest
      else bind_result (list_remove c rest) (fun rest' => Ok (x :: rest'))
  end.

(** ** qtpynodeeditor/port.py *)

Module Port.

Record t : Type := mk {
  port_type : PortType;
  index : PortIndex;
  _connections : list Connection
}.

Definition connections (self : t) : list Connection := _connections self.

(** For an output port the method reads [self.model], which [Port] does
    not define ([data_model] is the property it has). *)
Definition connection_policy (self : t) : result ConnectionPolicy :=
  match port_type self with
  | PortType_input => Ok ConnectionPolicy_one
  | _ => Raise AttributeError
  end.

Definition is_many (p : ConnectionPolicy) : bool :=
  match p with ConnectionPolicy_many => true | ConnectionPolicy_one => false end.

(** [not self._connections or self.connection_policy == many] *)
Definition can_connect (self : t) : result bool :=
  match _connections self with
  | [] => Ok true
  | _ :: _ => bind_result (connection_policy self) (fun p => Ok (is_many p))
  end.

Definition add_connection (connection : Connection) : M t unit :=
  self <- get ;;
  if contains connection (_connections self) then raise ValueError
  else modify (fun s => mk (port_type s) (index s)
                           (_connections s ++ [connection])).

Definition remove_connection (connection : Connection) : M t unit :=
  self <- get ;;
  match list_remove connection (_connections self) with
  | Raise _ => ret tt
  | Ok rest => modify (fun s => mk (port_type s) (index s) rest)
  end.

End Port.

(** ** Nodes *)

Module Node.

(** Modelled from the spec: a node wraps one node data model, has a 2D
    position and holds, per direction and index, the connections of its
    ports. *)
Record t : Type := mk {
  _model : NodeDataModel;
  _position : float * float;
  _in : list Port.t;
  _out : list Port.t
}.

Definition make_ports (port_type : PortType) (n : Z) : list Port.t :=
  map (fun i => Port.mk port_type (Z.of_nat i) []) (seq 0 (Z.to_nat n)).

Definition count (r : result Z) : Z :=
  match r with Ok n => n | Raise _ => 0%Z end.

(** Modelled from the spec: [Node(data_model)], a node at the origin with
    one empty port per input and output its model declares. *)
Definition __init__ (data_model : NodeDataModel) : t :=
  mk data_model (fzero, fzero)
     (make_ports PortType_input (count (Model.n_ports data_model PortType_input)))
     (make_ports PortType_output (count (Model.n_ports data_model PortType_output))).

Definition entries (self : t) (port_type : PortType) : list Port.t :=
  match port_type with
  | PortType_input => _in self
  | PortType_output => _out self
  | PortType_none => []
  end.

Definition set_entries (port_type : PortType) (ports : list Port.t) (self : t) : t :=
  match port_type with
  | PortType_input => mk (_model self) (_position self) ports (_out self)
  | PortType_output => mk (_model self) (_position self) (_in self) ports
  | PortType_none => self
  end.

Definition set_model (m : NodeDataModel) (self : t) : t :=
  mk m (_position self) (_in self) (_out self).

Definition port_at (self : t) (port_type : PortType) (port_index : PortIndex)
  : option Port.t :=
  if (port_index <? 0)%Z then None
  else nth_error (entries self port_type) (Z.to_nat port_index).

Fixpoint replace_nth {A} (n : nat) (x : A) (l : list A) : list A :=
  match l, n with
  | [], _ => []
  | _ :: rest, O => x :: rest
  | y :: rest, S n' => y :: replace_nth n' x rest
  end.

(** Modelled from the spec: access to the port state of
    [(port_type, port_index)]; a port the node does not have is an
    [IndexError]. *)
Definition on_port {A} (port_type : PortType) (port_index : PortIndex)
  (c : M Port.t A) : M t A :=
  fun self =>
    match port_at self port_type port_index with
    | None => (Raise IndexError, self)
    | Some p =>
        let (r, p') := c p in
        (r, set_entries port_type
              (replace_nth (Z.to_nat port_index) p' (entries self port_type))
              self)
    end.

(** Modelled from the spec: [node_state().connections(port_type,
    port_index)], the connections the port holds, zero or more.  The
    result is the Python value returned: always a list, never [None]. *)
Definition connections (self : t) (port_type : PortType) (port_index : PortIndex)
  : option (list Connection) :=
  match port_at self port_type port_index with
  | Some p => Some (Port.connections p)
  | None => Some []
  end.

(** Modelled from the spec: [node_state().all_connections], the
    connections of all ports of the node. *)
Definition all_connections (self : t) : list Connection :=
  flat_map Port.connections (_in self) ++ flat_map Port.connections (_out self).

(** Modelled from the spec: [node_state().set_connection(port_type,
    port_index, connection)], which registers the connection on the port
    as [Port.add_connection] does. *)
Definition set_connection (port_type : PortType) (port_index : PortIndex)
  (connection : Connection) : M t unit :=
  on_port port_type port_index (Port.add_connection connection).

(** Modelled from the spec: detaching a connection from a port, as
    [Port.remove_connection] does; nothing happens when the node has no
    such port. *)
Definition erase_connection (port_type : PortType) (port_index : PortIndex)
  (connection : Connection) : M t unit :=
  fun self =>
    match on_port port_type port_index (Port.remove_connection connection) self with
    | (Ok _, self') => (Ok tt, self')
    | (Raise _, _) => (Ok tt, self)
    end.

(** Modelled from the spec: [Node.propagate_data], which delivers the
    value to [set_in_data] of the node's model. *)
Definition propagate_data (data : option NodeData) (port_index : PortIndex)
  : M t unit :=
  fun self =>
    let (r, m') := Model.set_in_data data port_index (_model self) in
    (r, set_model m' self).

End Node.

(** ** The registry *)

Module DataModelRegistry.

(** Modelled from the spec: the registry maps a model name to a factory
    of node data models and a (source type id, destination type id) pair
    to a conversion function. *)
Record t : Type := mk {
  _models : list (string * NodeDataModel);
  _type_converters : list ((option string * option string) * converter_fn)
}.

Definition __init__ : t := mk [] [].

(** Modelled from the spec: [register_model], which files the factory
    under the name of the model. *)
Definition register_model (model : NodeDataModel) (self : t) : t :=
  mk (_models self ++ [(Model.model_name model, model)]) (_type_converters self).

(** Modelled from the spec: [create(model_name)], a fresh model, or
    [None] for an unknown name. *)
Definition create (self : t) (model_name : json) : option NodeDataModel :=
  match model_name with
  | JStr s => assoc s (_models self)
  | _ => None
  end.

Definition same_id (a b : option string) : bool :=
  match a, b with
  | Some x, Some y => String.eqb x y
  | None, None => true
  | _, _ => false
  end.

Definition same_key (a b : option string * option string) : bool :=
  same_id (fst a) (fst b) && same_id (snd a) (snd b).

(** Modelled from the spec: [register_type_converter] and
    [get_type_converter], keyed by the ids of the source and destination
    types. *)
Definition register_type_converter (source destination : NodeDataType)
  (fn : converter_fn) (self : t) : t :=
  mk (_models self)
     (((id source, id destination), fn)
        :: filter (fun e => negb (same_key (fst e) (id source, id destination)))
                  (_type_converters self)).

Definition get_type_converter (self : t) (source destination : NodeDataType)
  : option TypeConverter :=
  match find (fun e => same_key (fst e) (id source, id destination))
             (_type_converters self) with
  | Some e => Some (Registered source destination (snd e))
  | None => None
  end.

End DataModelRegistry.

(** The registry that [main] of calculator.py builds, short of
    [ModuloModel], which is not embedded: a document that names "Modulo" is
    refused by this registry. *)
Definition main_registry : DataModelRegistry.t :=
  let models :=
    [ Math (MathOperationDataModel.__init__ MathOperationDataModel.AdditionModel);
      Math (MathOperationDataModel.__init__ MathOperationDataModel.DivisionModel);
      Math (MathOperationDataModel.__init__ MathOperationDataModel.MultiplicationModel);
      Source NumberSourceDataModel.__init__;
      Math (MathOperationDataModel.__init__ MathOperationDataModel.SubtractionModel);
      Display NumberDisplayModel.__init__ ] in
  let registry :=
    fold_left (fun r m => DataModelRegistry.register_model m r) models
              DataModelRegistry.__init__ in
  let registry :=
    DataModelRegistry.register_type_converter
      DecimalData_data_type IntegerData_data_type decimal_to_integer registry in
  DataModelRegistry.register_type_converter
    IntegerData_data_type DecimalData_data_type decimal_to_integer registry.

(** ** nodeeditor/flow_scene.py *)

Inductive signal : Type :=
| connection_created (c : Connection)
| node_created (uid : Uuid)
| node_deleted (uid : Uuid).

(** A Python [dict] keyed by node identifier, in insertion order. *)
Module Dict.

Definition t : Type := list (Uuid * Node.t).

Definition lookup (k : Uuid) (d : t) : option Node.t := assoc k d.

Fixpoint set (k : Uuid) (v : Node.t) (d : t) : t :=
  match d with
  | [] => [(k, v)]
  | (k', v') :: rest =>
      if String.eqb k k' then (k, v) :: rest else (k', v') :: set k v rest
  end.

Fixpoint del (k : Uuid) (d : t) : result t :=
  match d with
  | [] => Raise KeyError
  | (k', v') :: rest =>
      if String.eqb k k' then Ok rest
      else bind_result (del k rest) (fun rest' => Ok ((k', v') :: rest'))
  end.

Definition keys (d : t) : list Uuid := map fst d.
Definition values (d : t) : list Node.t := map snd d.

End Dict.

Module FlowScene.

(** [emitted] records the signals the scene emits; [allocated] counts the
    connection objects created so far. *)
Record t : Type := mk {
  _connections : list Connection;
  _nodes : Dict.t;
  _registry : DataModelRegistry.t;
  emitted : list signal;
  allocated : nat
}.

Definition __init__ (registry : option DataModelRegistry.t) : t :=
  mk [] []
     (match registry with Some r => r | None => DataModelRegistry.__init__ end)
     [] 0.

Definition set_connections (l : list Connection) : M t unit :=
  modify (fun s => mk l (_nodes s) (_registry s) (emitted s) (allocated s)).
Definition set_nodes (d : Dict.t) : M t unit :=
  modify (fun s => mk (_connections s) d (_registry s) (emitted s) (allocated s)).
Definition emit (sig : signal) : M t unit :=
  modify (fun s => mk (_connections s) (_nodes s) (_registry s)
                      (emitted s ++ [sig]) (allocated s)).
Definition allocate : M t nat :=
  fun s => (Ok (allocated s),
            mk (_connections s) (_nodes s) (_registry s) (emitted s)
               (S (allocated s))).

(** Run a method of the node stored under [uid]; a Node object is named
    by its key in [_nodes], and a key that is not there is a [KeyError]. *)
Definition with_node {A} (uid : Uuid) (c : M Node.t A) : M t A :=
  fun s =>
    match Dict.lookup uid (_nodes s) with
    | None => (Raise KeyError, s)
    | Some n =>
        let (r, n') := c n in
        (r, mk (_connections s) (Dict.set uid n' (_nodes s)) (_registry s)
               (emitted s) (allocated s))
    end.

(** The same for a node that may be gone. *)
Definition with_node_if_present (uid : Uuid) (c : M Node.t unit) : M t unit :=
  fun s =>
    match Dict.lookup uid (_nodes s) with
    | None => (Ok tt, s)
    | Some _ => with_node uid c s
    end.

(** Modelled from the spec: [Connection.propagate_data], which applies the
    converter of the connection, when there is one, and delivers the value
    to the destination node's input. *)
Definition convert (c : Connection) (data : option NodeData)
  : result (option NodeData) :=
  match converter c with
  | None | Some DefaultTypeConverter => Ok data
  | Some (Registered _ _ fn) =>
      bind_result (call_converter fn data) (fun d => Ok (Some d))
  end.

Definition propagate_data (c : Connection) (data : option NodeData) : M t unit :=
  converted <- lift (convert c data) ;;
  with_node (in_node c) (Node.propagate_data converted (in_index c)).

(** Modelled from the spec: [Node.on_data_updated], which reads the
    current output of the port and pushes it through the connections
    attached to the port. *)
Definition on_data_updated (node : Uuid) (port_index : PortIndex) : M t unit :=
  n <- with_node node get ;;
  let data := Model.out_data (Node._model n) port_index in
  match Node.connections n PortType_output port_index with
  | None => raise TypeError
  | Some attached => for_each attached (fun c => propagate_data c data)
  end.

(** Modelled from the spec: [Connection.remove_from_nodes], which detaches
    the connection from both ports and retracts the value at the
    destination input by delivering [None]. *)
Definition remove_from_nodes (c : Connection) : M t unit :=
  with_node_if_present (in_node c)
    (Node.erase_connection PortType_input (in_index c) c) ;;
  with_node_if_present (out_node c)
    (Node.erase_connection PortType_output (out_index c) c) ;;
  with_node_if_present (in_node c) (Node.propagate_data None (in_index c)).

Definition create_connection (node_in : Uuid) (port_index_in : PortIndex)
  (node_out : Uuid) (port_index_out : PortIndex)
  (converter : option TypeConverter) : M t Connection :=
  uid <- allocate ;;
  let connection :=
    mkConnection uid node_in port_index_in node_out port_index_out converter in
  with_node node_in (Node.set_connection PortType_input port_index_in connection) ;;
  with_node node_out (Node.set_connection PortType_output port_index_out connection) ;;
  on_data_updated node_out port_index_out ;;
  s <- get ;;
  set_connections (_connections s ++ [connection]) ;;
  emit (connection_created connection) ;;
  ret connection.

Definition delete_connection (connection : Connection) : M t unit :=
  s <- get ;;
  match list_remove connection (_connections s) with
  | Raise _ => ret tt
  | Ok rest =>
      set_connections rest ;;
      remove_from_nodes connection
  end.

(** [uid] is the identifier the new node draws. *)
Definition create_node (uid : Uuid) (data_model : NodeDataModel) : M t Uuid :=
  s <- get ;;
  set_nodes (Dict.set uid (Node.__init__ data_model) (_nodes s)) ;;
  emit (node_created uid) ;;
  ret uid.

Definition remove_node (node : Uuid) : M t unit :=
  emit (node_deleted node) ;;
  n <- with_node node get ;;
  for_each (Node.all_connections n) delete_connection ;;
  s <- get ;;
  nodes <- lift (Dict.del node (_nodes s)) ;;
  set_nodes nodes.

Definition clear_scene : M t unit :=
  s <- get ;;
  for_each (_connections s) delete_connection ;;
  s <- get ;;
  for_each (Dict.keys (_nodes s)) remove_node.

(** *** Saving *)

Definition json_of_id (x : option string) : json :=
  match x with Some v => JStr v | None => JNull end.

Definition type_json (ty : NodeDataType) : json :=
  JObj [("id", json_of_id (id ty)); ("name", json_of_id (name ty))].

(** Modelled from the spec: [Node.save], the document
    [{id, model, position}] of a node, the model part being
    [__getstate__()] of its model. *)
Definition node_save (uid : Uuid) (n : Node.t) : result json :=
  bind_result (Model.__getstate__ (Node._model n)) (fun model =>
    Ok (JObj [("id", JStr uid);
              ("model", model);
              ("position", JObj [("x", JFloat (fst (Node._position n)));
                                 ("y", JFloat (snd (Node._position n)))])])).

(** Modelled from the spec: [Connection.save], the document
    [{in_id, in_index, out_id, out_index, converter?}] of a complete
    connection; the converter entry names the two type ids. *)
Definition connection_save (c : Connection) : json :=
  JObj ([("in_id", JStr (in_node c)); ("in_index", JInt (in_index c));
         ("out_id", JStr (out_node c)); ("out_index", JInt (out_index c))]
        ++ match converter c with
           | Some (Registered source destination _) =>
               [("converter", JObj [("in", type_json destination);
                                    ("out", type_json source)])]
           | _ => []
           end).

Definition isEmpty (doc : json) : bool :=
  match doc with JObj [] => true | _ => false end.

Fixpoint save_nodes (d : Dict.t) : result (list json) :=
  match d with
  | [] => Ok []
  | (uid, n) :: rest =>
      bind_result (node_save uid n) (fun j =>
      bind_result (save_nodes rest) (fun js => Ok (j :: js)))
  end.

Definition save_to_memory (self : t) : result json :=
  bind_result (save_nodes (_nodes self)) (fun nodes_json_array =>
    let connection_json_array :=
      filter (fun j => negb (isEmpty j)) (map connection_save (_connections self)) in
    Ok (JObj [("nodes", JArr nodes_json_array);
              ("connections", JArr connection_json_array)])).

(** *** Restoring *)

(** [QUuid(text)] *)
Definition QUuid (v : json) : result Uuid :=
  match v with JStr s => Ok s | _ => Raise TypeError end.

Definition coordinate (v : json) : result float :=
  match v with
  | JFloat f => Ok f
  | JInt z => float_of_int z
  | _ => Raise TypeError
  end.

(** Modelled from the spec: [Node.restore], which takes the identifier
    and the position from the document and hands the model part to
    [restore] of the model. *)
Definition node_restore (env : Env) (node_json : json) (n : Node.t)
  : result (Uuid * Node.t) :=
  bind_result (getitem node_json "id") (fun i =>
  bind_result (QUuid i) (fun uid =>
  bind_result (getitem node_json "position") (fun pos =>
  bind_result (getitem pos "x") (fun jx =>
  bind_result (coordinate jx) (fun x =>
  bind_result (getitem pos "y") (fun jy =>
  bind_result (coordinate jy) (fun y =>
  bind_result (getitem node_json "model") (fun model_json =>
    match Model.restore env model_json (Node._model n) with
    | (Raise e, _) => Raise e
    | (Ok _, m) => Ok (uid, Node.mk m (x, y) (Node._in n) (Node._out n))
    end)))))))).

(** The node [restore_node] is about to store, and its key. *)
Definition restored (env : Env) (registry : DataModelRegistry.t)
  (node_json : json) : result (Uuid * Node.t) :=
  bind_result (getitem node_json "model") (fun model =>
  bind_result (getitem model "name") (fun model_name =>
    match DataModelRegistry.create registry model_name with
    | None => Raise ValueError
    | Some data_model => node_restore env node_json (Node.__init__ data_model)
    end)).

Definition restore_node (env : Env) (node_json : json) : M t Uuid :=
  s <- get ;;
  kn <- lift (restored env (_registry s) node_json) ;;
  set_nodes (Dict.set (fst kn) (snd kn) (_nodes s)) ;;
  emit (node_created (fst kn)) ;;
  ret (fst kn).

Definition is_not_None (v : json) : bool :=
  match v with JNull => false | _ => true end.

(** A type identifier or name read from a document. *)
Definition as_text (v : json) : option string :=
  match v with JStr s => Some s | _ => None end.

(** The local function [get_converter] of [restore_connection] *)
Definition get_converter (registry : DataModelRegistry.t) (connection_json : json)
  : result (option TypeConverter) :=
  bind_result (dict_get connection_json "converter") (fun converter =>
    if is_not_None converter then Ok (Some DefaultTypeConverter)
    else
      bind_result (getitem converter "in") (fun cin =>
      bind_result (getitem cin "id") (fun in_id =>
      bind_result (getitem cin "name") (fun in_name =>
      bind_result (getitem converter "out") (fun cout =>
      bind_result (getitem cout "id") (fun out_id =>
      bind_result (getitem cout "name") (fun out_name =>
        let in_type := mkNodeDataType (as_text in_id) (as_text in_name) in
        let out_type := mkNodeDataType (as_text out_id) (as_text out_name) in
        Ok (DataModelRegistry.get_type_converter registry out_type in_type)))))))).

Definition port_index_of (v : json) : result PortIndex :=
  match v with JInt z => Ok z | _ => Raise TypeError end.

Definition restore_connection (connection_json : json) : M t Connection :=
  i <- lift (getitem connection_json "in_id") ;;
  node_in_id <- lift (QUuid i) ;;
  o <- lift (getitem connection_json "out_id") ;;
  node_out_id <- lift (QUuid o) ;;
  port_index_in <- lift (getitem connection_json "in_index") ;;
  port_index_out <- lift (getitem connection_json "out_index") ;;
  _ <- with_node node_in_id get ;;
  _ <- with_node node_out_id get ;;
  s <- get ;;
  converter <- lift (get_converter (_registry s) connection_json) ;;
  pin <- lift (port_index_of port_index_in) ;;
  pout <- lift (port_index_of port_index_out) ;;
  create_connection node_in_id pin node_out_id pout converter.

(** [doc] is the argument as Python holds it: a [dict] or a string. *)
Definition load_from_memory (env : Env) (doc : json) : M t unit :=
  doc <- lift (match doc with
               | JObj _ => Ok doc
               | JStr text =>
                   match json_loads env text with
                   | Some d => Ok d
                   | None => Raise ValueError
                   end
               | _ => Raise TypeError
               end) ;;
  nodes <- lift (bind_result (getitem doc "nodes") iterate) ;;
  for_each nodes (fun node => restore_node env node ;; ret tt) ;;
  connections <- lift (bind_result (getitem doc "connections") iterate) ;;
  for_each connections (fun connection => restore_connection connection ;; ret tt).

(** [load(file_name)] for a given file name *)
Definition load (env : Env) (file_name : string) : M t unit :=
  clear_scene ;;
  match read_file env file_name with
  | None => ret tt
  | Some contents => load_from_memory env (JStr contents)
  end.

(** *** Traversal in dependency order *)

(** [visits] lists the nodes whose model was handed to the visitor, in
    the order of the calls; [passes] counts the rounds of the [while]
    loop. *)
Record traversal : Type := mkTraversal {
  visits : list Uuid;
  visited_nodes : list Uuid;
  passes : nat
}.

Definition visit (uid : Uuid) (tr : traversal) : traversal :=
  mkTraversal (visits tr ++ [uid]) (visited_nodes tr ++ [uid]) (passes tr).

Definition is_None {A} (v : option A) : bool :=
  match v with None => true | Some _ => false end.

Definition is_node_leaf (node : Node.t) : result bool :=
  bind_result (Model.port_range (Node._model node) PortType_input) (fun ports =>
    Ok (forallb (fun i => negb (is_None
                   (Node.connections node PortType_input (Z.of_nat i))))
                ports)).

(** [visited_nodes and other == visited_nodes[-1]] *)
Definition is_last (visited : list Uuid) (other : Uuid) : bool :=
  match visited with
  | [] => false
  | _ :: _ => String.eqb other (last visited "")
  end.

Fixpoint inputs_not_last (node : Node.t) (visited : list Uuid) (ports : list nat)
  : result bool :=
  match ports with
  | [] => Ok true
  | i :: rest =>
      match Node.connections node PortType_input (Z.of_nat i) with
      | None => Raise TypeError
      | Some conns =>
          if existsb (fun conn => is_last visited (out_node conn)) conns
          then Ok false
          else inputs_not_last node visited rest
      end
  end.

Definition are_node_inputs_visited_before (visited : list Uuid) (node : Node.t)
  : result bool :=
  bind_result (Model.port_range (Node._model node) PortType_input)
              (inputs_not_last node visited).

Fixpoint leaf_pass (nodes : Dict.t) (tr : traversal) : result traversal :=
  match nodes with
  | [] => Ok tr
  | (uid, node) :: rest =>
      bind_result (is_node_leaf node) (fun leaf =>
        leaf_pass rest (if leaf then visit uid tr else tr))
  end.

(** [node in visited_nodes and node is not visited_nodes[-1]] *)
Definition skipped (visited : list Uuid) (uid : Uuid) : bool :=
  existsb (String.eqb uid) visited && negb (is_last visited uid).

Fixpoint dependent_pass (nodes : Dict.t) (tr : traversal) : result traversal :=
  match nodes with
  | [] => Ok tr
  | (uid, node) :: rest =>
      if skipped (visited_nodes tr) uid then dependent_pass rest tr
      else
        bind_result (are_node_inputs_visited_before (visited_nodes tr) node)
          (fun ready => dependent_pass rest (if ready then visit uid tr else tr))
  end.

(** The [while] loop; [None] when [fuel] rounds were not enough. *)
Fixpoint dependent_loop (fuel : nat) (nodes : Dict.t) (tr : traversal)
  : option (result traversal) :=
  if Nat.eqb (List.length nodes) (List.length (visited_nodes tr)) then Some (Ok tr)
  else
    match fuel with
    | O => None
    | S fuel' =>
        match dependent_pass nodes tr with
        | Raise e => Some (Raise e)
        | Ok tr' =>
            dependent_loop fuel' nodes
              (mkTraversal (visits tr') (visited_nodes tr') (S (passes tr')))
        end
    end.

Definition iterate_over_node_data_dependent_order (fuel : nat) (self : t)
  : option (result traversal) :=
  match leaf_pass (_nodes self) (mkTraversal [] [] 0) with
  | Raise e => Some (Raise e)
  | Ok tr => dependent_loop fuel (_nodes self) tr
  end.

End FlowScene.

Import FlowScene.
Module M_ := MathOperationDataModel.

(** ** Conditions on scenes and documents *)

(** [frame s s']: the step from [s] to [s'] touched neither the registry,
    nor the keys of the node collection, nor the connection collection. *)
Definition frame (s s' : FlowScene.t) : Prop :=
  _registry s' = _registry s
  /\ Dict.keys (_nodes s') = Dict.keys (_nodes s)
  /\ _connections s' = _connections s.

Definition framed {A} (c : M FlowScene.t A) : Prop :=
  forall s, frame s (snd (c s)).

(** [model_at uid s m]: the node stored under [uid] wraps the model [m]. *)
Definition model_at (uid : Uuid) (s : FlowScene.t) (m : NodeDataModel) : Prop :=
  exists n, Dict.lookup uid (_nodes s) = Some n /\ Node._model n = m.

(** Position of the first call of the visitor on a node. *)
Fixpoint position (uid : Uuid) (l : list Uuid) : option nat :=
  match l with
  | [] => None
  | x :: rest =>
      if String.eqb uid x then Some 0
      else option_map S (position uid rest)
  end.

(** The calculator's nodes have inputs 0 and 1 at most. *)
Definition ends_at_input (c : Connection) : Prop :=
  in_index c = 0%Z \/ in_index c = 1%Z.

Definition wired_to_inputs (s : FlowScene.t) : Prop :=
  Forall ends_at_input (_connections s).




(** ** Scenes used below *)

Module Scenario.

Import FlowScene.

Definition decimal (z : Z) : float := float_of_Z z.

(** A document that names a model that [main] does not register. *)
Definition unknown_model_doc : json :=
  JObj [("nodes", JArr [JObj [("id", JStr "n");
                              ("model", JObj [("name", JStr "Logarithm")]);
                              ("position", JObj [("x", JInt 0); ("y", JInt 0)])]]);
        ("connections", JArr [])].

(** A document with two nodes and two connections, the second of which
    names a node the document does not have. *)
Definition dangling_doc : json :=
  let converter :=
    JObj [("in", JObj [("id", JStr "decimal"); ("name", JStr "Decimal")]);
          ("out", JObj [("id", JStr "decimal"); ("name", JStr "Decimal")])] in
  JObj [("nodes",
         JArr [JObj [("id", JStr "x");
                     ("model", JObj [("name", JStr "NumberSource")]);
                     ("position", JObj [("x", JInt 0); ("y", JInt 0)])];
               JObj [("id", JStr "y");
                     ("model", JObj [("name", JStr "NumberDisplay")]);
                     ("position", JObj [("x", JInt 1); ("y", JInt 0)])]]);
        ("connections",
         JArr [JObj [("in_id", JStr "y"); ("in_index", JInt 0);
                     ("out_id", JStr "x"); ("out_index", JInt 0);
                     ("converter", converter)];
               JObj [("in_id", JStr "ghost"); ("in_index", JInt 0);
                     ("out_id", JStr "x"); ("out_index", JInt 0);
                     ("converter", converter)]])].

(** An environment in which the texts "0.0", "1.0", "2.0" and "5.0" read
    as floats, as do the texts "0", "1", "2" and "5" that ['%g'] makes of
    these floats, and with two files, which hold the two documents
    above. *)

Definition env : Env :=
  mkEnv (fun t => if String.eqb t "0.0" || String.eqb t "0" then Some (decimal 0)
                  else if String.eqb t "1.0" || String.eqb t "1" then Some (decimal 1)
                  else if String.eqb t "2.0" || String.eqb t "2" then Some (decimal 2)
                  else if String.eqb t "5.0" || String.eqb t "5" then Some (decimal 5)
                  else None)
        (fun t => if String.eqb t "unknown model" then Some unknown_model_doc
                  else if String.eqb t "dangling connection" then Some dangling_doc
                  else None)
        (fun f => if String.eqb f "bad.flow" then Some "unknown model"
                  else if String.eqb f "dangling.flow" then Some "dangling connection"
                  else None)
        (fun x => if feqb x (decimal 0) then "0"
                  else if feqb x (decimal 1) then "1"
                  else if feqb x (decimal 2) then "2"
                  else if feqb x (decimal 5) then "5"
                  else "nan").

(** A number source after its line edit took the text [shown]. *)
Definition source (shown : string) : NodeDataModel :=
  Source (snd (NumberSourceDataModel.setText env shown
                 NumberSourceDataModel.__init__)).

Definition operation (c : MathOperationDataModel.subclass) : NodeDataModel :=
  Math (MathOperationDataModel.__init__ c).

Definition display : NodeDataModel := Display NumberDisplayModel.__init__.

Definition empty : FlowScene.t := FlowScene.__init__ (Some main_registry).

(** Two sources wired to the two inputs of one operation node. *)
Definition wire_binary (c : MathOperationDataModel.subclass) (x y : string)
  : M FlowScene.t unit :=
  create_node "a" (source x) ;;
  create_node "b" (source y) ;;
  create_node "op" (operation c) ;;
  create_connection "op" 0%Z "a" 0%Z None ;;
  create_connection "op" 1%Z "b" 0%Z None ;;
  ret tt.

Definition binary (c : MathOperationDataModel.subclass) (x y : string)
  : result unit * FlowScene.t :=
  wire_binary c x y empty.

(** The connection that feeds input 1 in [binary]. *)
Definition divisor_connection : Connection :=
  mkConnection 1 "op" 1%Z "b" 0%Z None.

(** What a node of a scene shows to the outside: its output at port 0 and
    its validation state. *)
Definition observed (uid : Uuid) (s : FlowScene.t)
  : option (option NodeData * NodeValidationState) :=
  match Dict.lookup uid (_nodes s) with
  | Some n => Some (Model.out_data (Node._model n) 0%Z,
                    Model.validation_state (Node._model n))
  | None => None
  end.

(** The chain Source -> Addition -> Display, the nodes created in the
    order display, addition, source. *)
Definition wire_chain : M FlowScene.t unit :=
  create_node "display" display ;;
  create_node "add" (operation MathOperationDataModel.AdditionModel) ;;
  create_node "source" (source "1.0") ;;
  create_connection "add" 0%Z "source" 0%Z None ;;
  create_connection "display" 0%Z "add" 0%Z None ;;
  ret tt.

Definition chain : result unit * FlowScene.t := wire_chain empty.

(** One source wired to a display. *)
Definition wire_pair : M FlowScene.t unit :=
  create_node "source" (source "1.0") ;;
  create_node "display" display ;;
  create_connection "display" 0%Z "source" 0%Z None ;;
  ret tt.

Definition pair : FlowScene.t := snd (wire_pair empty).

(** Two sources wired, one after the other, to input 0 of an addition. *)
Definition wire_twice : M FlowScene.t unit :=
  create_node "a" (source "1.0") ;;
  create_node "b" (source "2.0") ;;
  create_node "add" (operation MathOperationDataModel.AdditionModel) ;;
  create_connection "add" 0%Z "a" 0%Z None ;;
  create_connection "add" 0%Z "b" 0%Z None ;;
  ret tt.

Definition twice : result unit * FlowScene.t := wire_twice empty.

(** An integer-typed output wired to a decimal-typed input through the
    converter [main] registers for that pair. *)
Definition integer_to_decimal_connection : Connection :=
  mkConnection 0 "display" 0%Z "producer" 0%Z
    (DataModelRegistry.get_type_converter main_registry
       IntegerData_data_type DecimalData_data_type).

End Scenario.

(** ** Further parts of the sources *)

(** *** qtpynodeeditor/port.py *)

(** The module-level [opposite_port]: a dictionary lookup with
    [PortType.none] as the default. *)
Definition opposite_port (port : PortType) : PortType :=
  match port with
  | PortType_input => PortType_output
  | PortType_output => PortType_input
  | PortType_none => PortType_none
  end.

(** [Port.__init__]: the new port, and the value of its attribute
    [opposite_port], which is read from a dictionary without default. *)
Definition Port__init__ (port_type : PortType) (index : PortIndex)
  : result (Port.t * PortType) :=
  match port_type with
  | PortType_input => Ok (Port.mk port_type index [], PortType_output)
  | PortType_output => Ok (Port.mk port_type index [], PortType_input)
  | PortType_none => Raise KeyError
  end.

(** *** nodeeditor/node_data.py: class statements deriving from NodeData *)

(** [class DecimalData(NodeData): data_type = NodeDataType("decimal", "Decimal")] *)
Definition DecimalData_body : NodeDataClass.class_body :=
  NodeDataClass.mkClass (Some (NodeDataClass.AttrType DecimalData_data_type)).

(** A class body that binds nothing, as in [class Child(DecimalData): pass]. *)
Definition empty_body : NodeDataClass.class_body :=
  NodeDataClass.mkClass None.

(** A class that is no subclass of NodeData and binds [data_type = None];
    as a base listed before NodeData it precedes NodeData in the method
    resolution order. *)
Definition untyped_mixin_body : NodeDataClass.class_body :=
  NodeDataClass.mkClass (Some NodeDataClass.AttrNone).

(** *** nodeeditor/node_data.py: [NodeDataModel.__init_subclass__] *)

Module ModelClass.

(** What a class body can bind to [name], [caption] or [caption_visible]:
    [None], a boolean, a string, or a method (a [def] in the body). *)
Inductive value : Type :=
| VNone
| VBool (b : bool)
| VStr (s : string)
| VMethod.

Definition is_None (v : value) : bool :=
  match v with VNone => true | _ => false end.

(** Truth value of an attribute in a condition. *)
Definition truthy (v : value) : bool :=
  match v with
  | VNone => false
  | VBool b => b
  | VStr s => negb (String.eqb s "")
  | VMethod => true
  end.

(** The namespace of a class: its [__name__] and the attributes bound in
    the class itself. *)
Record namespace : Type := mk {
  __name__ : string;
  own_name : option value;
  own_caption : option value;
  own_caption_visible : option value
}.

(** Attribute lookup along the bases, nearest first; [NodeDataModel]
    itself, with [name = None], [caption = None] and
    [caption_visible = True], comes last. *)
Fixpoint lookup (field : namespace -> option value) (in_NodeDataModel : value)
  (mro : list namespace) : value :=
  match mro with
  | [] => in_NodeDataModel
  | c :: rest =>
      match field c with
      | Some v => v
      | None => lookup field in_NodeDataModel rest
      end
  end.

Definition cls_name (mro : list namespace) : value := lookup own_name VNone mro.
Definition cls_caption (mro : list namespace) : value := lookup own_caption VNone mro.
Definition cls_caption_visible (mro : list namespace) : value :=
  lookup own_caption_visible (VBool true) mro.

(** [NodeDataModel.__init_subclass__]: the namespace of [cls] after the
    two assignments. *)
Definition __init_subclass__ (cls : namespace) (bases : list namespace)
  : namespace :=
  let cls1 :=
    if is_None (cls_name (cls :: bases))
    then mk (__name__ cls) (Some (VStr (__name__ cls))) (own_caption cls)
            (own_caption_visible cls)
    else cls in
  if is_None (cls_caption (cls1 :: bases))
     && truthy (cls_caption_visible (cls1 :: bases))
  then mk (__name__ cls1) (own_name cls1) (Some (cls_name (cls1 :: bases)))
          (own_caption_visible cls1)
  else cls1.

(** The classes of a chain of class statements, most derived first, each
    created after its bases. *)
Fixpoint created (bodies : list namespace) : list namespace :=
  match bodies with
  | [] => []
  | c :: bases => __init_subclass__ c (created bases) :: created bases
  end.

(** The class statements of calculator.py. *)
Definition MathOperationDataModel_body : namespace :=
  mk "MathOperationDataModel" None (Some VMethod) (Some VMethod).
Definition MultiplicationModel_body : namespace :=
  mk "MultiplicationModel" (Some (VStr "Multiplication")) None None.
Definition NumberDisplayModel_body : namespace :=
  mk "NumberDisplayModel" (Some (VStr "NumberDisplay")) None (Some VMethod).

End ModelClass.

(** *** nodeeditor/flow_scene.py: scenes for the [while] loop of the traversal *)




(** *** nodeeditor/flow_scene.py: the plain iteration *)

(** [iterate_over_node_data]: the nodes whose model is handed to the
    visitor, in order, with the model. *)
Definition iterate_over_node_data (self : FlowScene.t)
  : list (Uuid * NodeDataModel) :=
  map (fun kn => (fst kn, Node._model (snd kn))) (_nodes self).

(** *** Further conditions *)

(** No two connections of the scene are the same object. *)
Definition distinct_connections (s : FlowScene.t) : Prop :=
  NoDup (map conn_id (_connections s)).

(** The node collection is a dictionary: no key occurs twice. *)
Definition distinct_keys (s : FlowScene.t) : Prop :=
  NoDup (Dict.keys (_nodes s)).

(** The connection object about to be created is not yet in the scene. *)
Definition next_connection_is_new (s : FlowScene.t) : Prop :=
  forall c, In c (_connections s) -> conn_id c <> allocated s.

(** The node [n] is stored under [node], the connections on its ports end
    at input 0 or 1, and every connection of the scene that touches the node
    is on one of its ports. *)
Definition node_in_scene (s : FlowScene.t) (node : Uuid) (n : Node.t) : Prop :=
  Dict.lookup node (_nodes s) = Some n
  /\ Forall ends_at_input (Node.all_connections n)
  /\ (forall x, In x (_connections s) ->
        in_node x = node \/ out_node x = node ->
        contains x (Node.all_connections n) = true).

(** [grows s s']: from [s] to [s'] the registry stayed, no node key went
    away and the connections of [s] are the first connections of [s']. *)
Definition grows (s s' : FlowScene.t) : Prop :=
  _registry s' = _registry s
  /\ incl (Dict.keys (_nodes s)) (Dict.keys (_nodes s'))
  /\ exists added, _connections s' = (_connections s ++ added)%list.

Definition growing {A} (c : M FlowScene.t A) : Prop :=
  forall s, grows s (snd (c s)).

(** A connection document whose destination is a node no scene here
    has. *)
Definition dangling_connection_doc : json :=
  JObj [("in_id", JStr "ghost"); ("in_index", JInt 0);
        ("out_id", JStr "source"); ("out_index", JInt 0)].

(** The port [(port_type, index)] of the node stored under [node] holds the
    connection [c]. *)
Definition held_by_port (s : FlowScene.t) (node : Uuid) (port_type : PortType)
  (index : PortIndex) (c : Connection) : Prop :=
  exists n p,
    Dict.lookup node (_nodes s) = Some n
    /\ Node.port_at n port_type index = Some p
    /\ contains c (Port._connections p) = true.

(** The node stored under [node] is [n], it has the port
    [(port_type, index)], and the port holds [held], none of which is the
    connection object about to be created. *)
Definition port_ready (s : FlowScene.t) (node : Uuid) (n : Node.t)
  (port_type : PortType) (index : PortIndex) (held : list Connection) : Prop :=
  Dict.lookup node (_nodes s) = Some n
  /\ (exists p, Node.port_at n port_type index = Some p
                /\ Port._connections p = held)
  /\ (forall x, In x held -> conn_id x <> allocated s).

(** From [s] to [s'] every node kept its ports as they were. *)
Definition keeps_ports (s s' : FlowScene.t) : Prop :=
  forall k n, Dict.lookup k (_nodes s) = Some n ->
    exists n', Dict.lookup k (_nodes s') = Some n'
               /\ Node._in n' = Node._in n /\ Node._out n' = Node._out n.

(** A scene with three nodes and no connection. *)
Definition unwired_scene : FlowScene.t :=
  snd ((create_node "source" (Scenario.source "2.0") ;;
        create_node "div" (Scenario.operation MathOperationDataModel.DivisionModel) ;;
        create_node "display" Scenario.display) Scenario.empty).

(** What a saved document tells of the nodes: identifier, model name and
    position of each, in order. *)
Definition outline (d : Dict.t) : list (Uuid * string * (float * float)) :=
  map (fun kn => (fst kn, Model.model_name (Node._model (snd kn)),
                  Node._position (snd kn))) d.

(** * Properties *)

(** ** The calculator models *)

Lemma number_ok_decimal (f : float) :
  M_.number_ok (Some (DecimalData f)) = false.
Proof. reflexivity. Qed.

Lemma number_ok_integer (z : Z) :
  M_.number_ok (Some (IntegerData z)) = true.
Proof. reflexivity. Qed.

(** Whatever arrives, a model whose inputs are not both accepted ends in
    [warning] with no result, and the call returns. *)
Lemma set_in_data_rejected (data : option NodeData) (i : PortIndex) (m : M_.t) :
  let m1 := snd ((if Z.eqb i 0 then M_.set_number1 data
                  else if Z.eqb i 1 then M_.set_number2 data
                  else ret tt) m) in
  M_.number_ok (M_._number1 m1) && M_.number_ok (M_._number2 m1) = false ->
  exists m', M_.set_in_data data i m = (Ok tt, m')
             /\ M_._result m' = None
             /\ M_._validation_state m' = warning
             /\ M_._number1 m' = M_._number1 m1
             /\ M_._number2 m' = M_._number2 m1.
Proof.
  intros m1 H. subst m1. unfold M_.set_in_data, bind at 1.
  destruct (Z.eqb i 0); [| destruct (Z.eqb i 1)]; cbn in *.
  all: unfold M_._check_inputs, bind, get; cbn.
  all: match goal with
       | |- context [negb ?a || negb ?b] =>
           assert (E : negb a || negb b = true)
             by (destruct a, b; cbn in *; congruence);
           rewrite E
       end.
  all: cbn; eexists; repeat split.
Qed.

(** The compute step of [AdditionModel] on two decimals adds them: the
    sum is only out of reach behind [_check_inputs]. *)
Lemma addition_compute_adds (x y : float) (r : option NodeData)
  (v : NodeValidationState) (msg : string) (log : list PortIndex) :
  let m := M_.mk M_.AdditionModel (Some (DecimalData x)) (Some (DecimalData y))
                 r v msg log in
  M_.compute m = (Ok tt, M_.mk M_.AdditionModel (Some (DecimalData x))
                           (Some (DecimalData y))
                           (Some (DecimalData (fadd x y))) v msg log).
Proof. reflexivity. Qed.

Example one_plus_two : fadd (Scenario.decimal 1) (Scenario.decimal 2) = Scenario.decimal 3.
Proof. vm_compute. reflexivity. Qed.

(** C1.  Two sources holding DecimalData(1.0) and DecimalData(2.0) are
    connected to inputs 0 and 1 of an Addition node.  Both connections are
    made without an exception, and afterwards the output of the Addition
    node at port 0 is None and its validation state is warning: the type
    id "decimal" of DecimalData is not among the ids [_check_inputs]
    accepts, so the sum DecimalData(3.0) is never computed.  The same holds
    of the model alone when the two values are handed to [set_in_data]. *)
Theorem addition_of_decimal_sources_is_rejected :
  let s := Scenario.binary M_.AdditionModel "1.0" "2.0" in
  fst s = Ok tt
  /\ List.length (FlowScene._connections (snd s)) = 2
  /\ Scenario.observed "a" (snd s)
     = Some (Some (DecimalData (Scenario.decimal 1)), valid)
  /\ Scenario.observed "b" (snd s)
     = Some (Some (DecimalData (Scenario.decimal 2)), valid)
  /\ Scenario.observed "op" (snd s) = Some (None, warning)
  /\ Scenario.observed "op" (snd s)
     <> Some (Some (DecimalData (Scenario.decimal 3)), valid)
  /\ (let m0 := M_.__init__ M_.AdditionModel in
      let m1 := snd (M_.set_in_data (Some (DecimalData (Scenario.decimal 1))) 0%Z m0) in
      let m2 := snd (M_.set_in_data (Some (DecimalData (Scenario.decimal 2))) 1%Z m1) in
      M_.out_data m2 0%Z = None /\ M_.validation_state m2 = warning).
Proof.
  vm_compute. repeat split; discriminate.
Qed.

(** C8.  Two sources holding DecimalData(5.0) and DecimalData(0.0) are
    connected to inputs 0 and 1 of a Division node.  No exception is raised
    and the output is None, but the validation state is warning, not error:
    [_check_inputs] rejects the decimals before [compute] can look at the
    divisor.  The same holds of the model alone when the two values are
    handed to [set_in_data]. *)
Theorem division_by_zero_sources_give_warning :
  let s := Scenario.binary M_.DivisionModel "5.0" "0.0" in
  fst s = Ok tt
  /\ Scenario.observed "a" (snd s)
     = Some (Some (DecimalData (Scenario.decimal 5)), valid)
  /\ Scenario.observed "b" (snd s)
     = Some (Some (DecimalData (Scenario.decimal 0)), valid)
  /\ Scenario.observed "op" (snd s) = Some (None, warning)
  /\ Scenario.observed "op" (snd s) <> Some (None, error)
  /\ (let m0 := M_.__init__ M_.DivisionModel in
      let m1 := M_.set_in_data (Some (DecimalData (Scenario.decimal 5))) 0%Z m0 in
      let m2 := M_.set_in_data (Some (DecimalData (Scenario.decimal 0))) 1%Z (snd m1) in
      fst m1 = Ok tt /\ fst m2 = Ok tt
      /\ M_.out_data (snd m2) 0%Z = None
      /\ M_.validation_state (snd m2) = warning).
Proof.
  vm_compute. repeat split; discriminate.
Qed.

(** The compute step of [DivisionModel] itself reports a zero divisor as
    [error] and clears the result. *)
Lemma division_compute_zero_divisor (x : float) (r : option NodeData)
  (v : NodeValidationState) (msg : string) (log : list PortIndex) :
  let m := M_.mk M_.DivisionModel (Some (DecimalData x))
                 (Some (DecimalData fzero)) r v msg log in
  M_.compute m = (Ok tt, M_.mk M_.DivisionModel (Some (DecimalData x))
                           (Some (DecimalData fzero)) None error
                           "Division by zero error" log).
Proof. reflexivity. Qed.

(** ** Converters *)

Lemma integer_number_is_a_method (z : Z) :
  attr_number (Some (IntegerData z)) = Ok (NumBoundMethod z).
Proof. reflexivity. Qed.

(** C7.  The converter that [main] registers for the pair (integer,
    decimal) is [decimal_to_integer_converter]; handed an IntegerData on a
    connection from an integer-typed output to a decimal-typed input it
    raises TypeError instead of delivering a DecimalData, and so does
    [integer_to_decimal_converter], because [IntegerData.number] is a method
    and not a property; propagation over the connection raises with it and
    delivers nothing. *)
Theorem registered_integer_to_decimal_converter_raises (z : Z) :
  DataModelRegistry.get_type_converter main_registry
    IntegerData_data_type DecimalData_data_type
  = Some (Registered IntegerData_data_type DecimalData_data_type decimal_to_integer)
  /\ FlowScene.convert Scenario.integer_to_decimal_connection (Some (IntegerData z))
     = Raise TypeError
  /\ integer_to_decimal_converter (Some (IntegerData z)) = Raise TypeError
  /\ (forall s, propagate_data Scenario.integer_to_decimal_connection
                  (Some (IntegerData z)) s = (Raise TypeError, s)).
Proof. repeat split. Qed.

(** On a decimal the conversion to an integer truncates towards zero. *)
Example decimal_to_integer_truncates :
  decimal_to_integer_converter
    (Some (DecimalData (fdiv (Scenario.decimal (-7)) (Scenario.decimal 2))))
  = Ok (IntegerData (-3)).
Proof. vm_compute. reflexivity. Qed.

(** ** Subclasses of NodeData *)

Import NodeDataClass.

Lemma lookup_never_None (bases : list class_body) :
  bases_created bases -> lookup_data_type bases <> AttrNone.
Proof.
  induction bases as [|b rest IH]; cbn.
  - discriminate.
  - intros [Hb Hrest]. unfold __init_subclass__, cls_data_type in Hb. cbn in Hb.
    destruct (declares_data_type b) as [a|].
    + destruct a; [discriminate | discriminate].
    + apply IH, Hrest.
Qed.

Lemma lookup_all_omitted (bases : list class_body) :
  Forall omits_data_type bases -> lookup_data_type bases = NodeData_data_type.
Proof.
  induction 1 as [|b rest Hb _ IH]; cbn.
  - reflexivity.
  - rewrite Hb. exact IH.
Qed.

(** C10, as the code has it.  For a subclass that omits [data_type], the
    attribute resolves to what the nearest base binds, and the guard of
    [NodeData.__init_subclass__] fires exactly when that is None.  It does
    not fire when the bases are a chain of classes that the guard accepted.
    When no base binds [data_type] either -- in particular for a direct
    subclass of NodeData -- the class is accepted and inherits
    NodeDataType(None, None), a type whose id is None. *)
Theorem init_subclass_accepts_omitted_data_type
  (cls : class_body) (bases : list class_body) :
  omits_data_type cls ->
  cls_data_type cls bases = lookup_data_type bases
  /\ (__init_subclass__ cls bases = Raise ValueError
      <-> lookup_data_type bases = AttrNone)
  /\ (bases_created bases -> __init_subclass__ cls bases = Ok tt)
  /\ (Forall omits_data_type bases ->
      __init_subclass__ cls bases = Ok tt
      /\ exists t, cls_data_type cls bases = AttrType t /\ id t = None).
Proof.
  intros Hc.
  assert (E : cls_data_type cls bases = lookup_data_type bases)
    by (unfold cls_data_type; cbn; rewrite Hc; reflexivity).
  split; [exact E|]. unfold __init_subclass__. rewrite E. split.
  - destruct (lookup_data_type bases); split; intro H;
      try reflexivity; discriminate.
  - split.
    + intro Hb. pose proof (lookup_never_None bases Hb) as H.
      destruct (lookup_data_type bases); [contradiction | reflexivity].
    + intro Hall. rewrite (lookup_all_omitted bases Hall). split.
      * reflexivity.
      * exists (mkNodeDataType None None). split; reflexivity.
Qed.

Lemma init_subclass_accepts_omitted_data_type_witness :
  cls_data_type empty_body [DecimalData_body] = lookup_data_type [DecimalData_body]
  /\ (__init_subclass__ empty_body [DecimalData_body] = Raise ValueError
      <-> lookup_data_type [DecimalData_body] = AttrNone)
  /\ (bases_created [DecimalData_body] ->
      __init_subclass__ empty_body [DecimalData_body] = Ok tt)
  /\ (Forall omits_data_type [DecimalData_body] ->
      __init_subclass__ empty_body [DecimalData_body] = Ok tt
      /\ exists t, cls_data_type empty_body [DecimalData_body] = AttrType t
                   /\ id t = None).
Proof.
  apply (init_subclass_accepts_omitted_data_type empty_body [DecimalData_body]).
  reflexivity.
Defined.

(** C10 fails on the code.  [class Child(DecimalData): pass] omits
    [data_type] and is accepted, but the type it inherits has the id
    "decimal", not None.  And the guard does fire for a class that omits
    [data_type]: under a base that binds [data_type = None] and is no
    subclass of NodeData, the class statement raises ValueError. *)
Lemma omitted_data_type_is_inherited_from_the_base :
  omits_data_type empty_body
  /\ bases_created [DecimalData_body]
  /\ __init_subclass__ empty_body [DecimalData_body] = Ok tt
  /\ cls_data_type empty_body [DecimalData_body] = AttrType DecimalData_data_type
  /\ id DecimalData_data_type = Some "decimal"
  /\ __init_subclass__ empty_body [untyped_mixin_body] = Raise ValueError.
Proof. repeat split. Qed.

(** The guard does fire when a class body binds [data_type = None]. *)
Example init_subclass_rejects_None :
  __init_subclass__ (mkClass (Some AttrNone)) [] = Raise ValueError.
Proof. reflexivity. Qed.

(** ** What the operations of the scene leave alone *)


Lemma frame_refl s : frame s s.
Proof. repeat split. Qed.

Lemma frame_trans s1 s2 s3 : frame s1 s2 -> frame s2 s3 -> frame s1 s3.
Proof.
  intros (R1 & K1 & C1) (R2 & K2 & C2). repeat split; congruence.
Qed.

Lemma framed_ret {A} (a : A) : framed (ret a).
Proof. intro s. apply frame_refl. Qed.

Lemma framed_raise {A} (e : exn) : framed (@raise _ A e).
Proof. intro s. apply frame_refl. Qed.

Lemma framed_lift {A} (r : result A) : framed (lift r).
Proof. intro s. apply frame_refl. Qed.

Lemma framed_get : framed (@get FlowScene.t).
Proof. intro s. apply frame_refl. Qed.

Lemma framed_emit sig : framed (emit sig).
Proof. intro s. repeat split. Qed.

Lemma framed_allocate : framed allocate.
Proof. intro s. repeat split. Qed.

Lemma framed_bind {A B} (c : M FlowScene.t A) (k : A -> M FlowScene.t B) :
  framed c -> (forall a, framed (k a)) -> framed (bind c k).
Proof.
  intros Hc Hk s. unfold bind. specialize (Hc s).
  destruct (c s) as [[a|e] s1]; cbn in *.
  - eapply frame_trans; [exact Hc | apply Hk].
  - exact Hc.
Qed.

Lemma framed_for_each {A} (l : list A) (body : A -> M FlowScene.t unit) :
  (forall a, framed (body a)) -> framed (for_each l body).
Proof.
  intro Hb. induction l as [|x rest IH]; cbn.
  - apply framed_ret.
  - apply framed_bind; [apply Hb | intros _; exact IH].
Qed.

Lemma keys_set_present (k : Uuid) (v n : Node.t) (d : Dict.t) :
  Dict.lookup k d = Some n -> Dict.keys (Dict.set k v d) = Dict.keys d.
Proof.
  unfold Dict.lookup, Dict.keys.
  induction d as [|[k' v'] rest IH]; cbn; [discriminate|].
  destruct (String.eqb k k') eqn:E; cbn.
  - intros _. apply String.eqb_eq in E. subst. reflexivity.
  - intro H. rewrite (IH H). reflexivity.
Qed.

Lemma framed_with_node {A} (uid : Uuid) (c : M Node.t A) :
  framed (with_node uid c).
Proof.
  intro s. unfold with_node.
  destruct (Dict.lookup uid (_nodes s)) as [n|] eqn:E.
  - destruct (c n) as [r n']. cbn. repeat split.
    cbn. eapply keys_set_present; eassumption.
  - apply frame_refl.
Qed.

Lemma framed_with_node_if_present (uid : Uuid) (c : M Node.t unit) :
  framed (with_node_if_present uid c).
Proof.
  intro s. unfold with_node_if_present.
  destruct (Dict.lookup uid (_nodes s)).
  - apply framed_with_node.
  - apply frame_refl.
Qed.

Lemma framed_propagate_data c data : framed (propagate_data c data).
Proof.
  apply framed_bind; [apply framed_lift | intro; apply framed_with_node].
Qed.

Lemma framed_on_data_updated node port_index :
  framed (on_data_updated node port_index).
Proof.
  apply framed_bind; [apply framed_with_node |].
  intro n. destruct (Node.connections n PortType_output port_index).
  - apply framed_for_each. intro. apply framed_propagate_data.
  - apply framed_raise.
Qed.

Lemma framed_remove_from_nodes c : framed (remove_from_nodes c).
Proof.
  unfold remove_from_nodes.
  repeat (apply framed_bind; [apply framed_with_node_if_present | intros _]).
  apply framed_with_node_if_present.
Qed.

(** ** Creating connections *)

Lemma framed_run {A} (c : M FlowScene.t A) (s s' : FlowScene.t) (r : result A) :
  framed c -> c s = (r, s') -> frame s s'.
Proof. intros H E. specialize (H s). rewrite E in H. exact H. Qed.

Lemma input_port_policy (p : Port.t) :
  Port.port_type p = PortType_input ->
  Port.connection_policy p = Ok ConnectionPolicy_one
  /\ Port.can_connect p = Ok (match Port._connections p with [] => true | _ => false end).
Proof.
  intro H. unfold Port.can_connect, Port.connection_policy. rewrite H.
  split; [reflexivity|]. destruct (Port._connections p); reflexivity.
Qed.

(** C6, as the code has it.  An input port is declared single-occupancy
    ([Port.connection_policy] answers ConnectionPolicy.one for every input
    port, and [Port.can_connect] is false once the port holds a connection),
    but [create_connection] does not displace: it never removes a
    connection from the scene, and when it succeeds the new connection, which
    ends at the requested input port, is appended to the connections that
    were there. *)
Theorem create_connection_never_displaces
  (node_in : Uuid) (port_index_in : PortIndex)
  (node_out : Uuid) (port_index_out : PortIndex)
  (conv : option TypeConverter) (s : FlowScene.t) :
  let (r, s') := create_connection node_in port_index_in node_out port_index_out conv s in
  (forall c, In c (_connections s) -> In c (_connections s'))
  /\ (forall c, r = Ok c ->
        _connections s' = (_connections s ++ [c])%list
        /\ in_node c = node_in /\ in_index c = port_index_in)
  /\ (forall p, Port.port_type p = PortType_input ->
        Port.connection_policy p = Ok ConnectionPolicy_one
        /\ Port.can_connect p
           = Ok (match Port._connections p with [] => true | _ => false end)).
Proof.
  unfold create_connection.
  set (connection := mkConnection (allocated s) node_in port_index_in
                       node_out port_index_out conv).
  unfold bind at 1. cbn [allocate].
  set (s0 := FlowScene.mk _ _ _ _ _).
  assert (F0 : _connections s0 = _connections s) by reflexivity.
  fold connection.
  unfold bind at 1.
  destruct (with_node node_in _ s0) as [[u1|e1] s1] eqn:E1;
    pose proof (framed_run _ _ _ _ (framed_with_node _ _) E1) as (_ & _ & F1).
  2:{ repeat split; try discriminate; try (apply input_port_policy; assumption).
      intros c Hc. rewrite F1, F0. exact Hc. }
  unfold bind at 1.
  destruct (with_node node_out _ s1) as [[u2|e2] s2] eqn:E2;
    pose proof (framed_run _ _ _ _ (framed_with_node _ _) E2) as (_ & _ & F2).
  2:{ repeat split; try discriminate; try (apply input_port_policy; assumption).
      intros c Hc. rewrite F2, F1, F0. exact Hc. }
  unfold bind at 1.
  destruct (on_data_updated node_out port_index_out s2) as [[u3|e3] s3] eqn:E3;
    pose proof (framed_run _ _ _ _ (framed_on_data_updated _ _) E3) as (_ & _ & F3).
  2:{ repeat split; try discriminate; try (apply input_port_policy; assumption).
      intros c Hc. rewrite F3, F2, F1, F0. exact Hc. }
  cbn. rewrite F3, F2, F1, F0. repeat split.
  - intros c Hc. apply in_or_app. left. exact Hc.
  - injection H as <-. reflexivity.
  - injection H as <-. reflexivity.
  - injection H as <-. reflexivity.
  - apply input_port_policy; assumption.
  - apply input_port_policy; assumption.
Qed.

(** C6 fails on the code: after a second connection is created to input 0
    of an Addition node that already holds one, the scene has two complete
    connections ending at that input, the first among them, and the port
    itself holds both. *)
Lemma second_connection_keeps_the_first :
  fst Scenario.twice = Ok tt
  /\ map (fun c => (in_node c, in_index c, out_node c))
         (_connections (snd Scenario.twice))
     = [("add", 0%Z, "a"); ("add", 0%Z, "b")]
  /\ option_map (fun n => List.length (Node.all_connections n))
                (Dict.lookup "add" (_nodes (snd Scenario.twice)))
     = Some 2.
Proof. vm_compute. repeat split. Qed.

(** ** Traversal in dependency order *)

Lemma connections_never_None (n : Node.t) (pt : PortType) (i : PortIndex) :
  is_None (Node.connections n pt i) = false.
Proof.
  unfold Node.connections. destruct (Node.port_at n pt i); reflexivity.
Qed.

Lemma input_port_range (m : NodeDataModel) :
  exists ports, Model.port_range m PortType_input = Ok ports.
Proof. destruct m; eexists; reflexivity. Qed.

(** Every node passes for a leaf: the test [connections is None] never
    holds of the list a port state answers. *)
Lemma every_node_is_leaf (n : Node.t) : is_node_leaf n = Ok true.
Proof.
  unfold is_node_leaf.
  destruct (input_port_range (Node._model n)) as [ports E]. rewrite E. cbn.
  f_equal. apply forallb_forall. intros i _.
  rewrite connections_never_None. reflexivity.
Qed.

Lemma leaf_pass_visits_all (nodes : Dict.t) (tr : traversal) :
  leaf_pass nodes tr
  = Ok (mkTraversal (visits tr ++ Dict.keys nodes)%list
                    (visited_nodes tr ++ Dict.keys nodes)%list
                    (passes tr)).
Proof.
  revert tr. induction nodes as [|[uid n] rest IH]; intro tr; cbn.
  - rewrite !app_nil_r. destruct tr; reflexivity.
  - rewrite every_node_is_leaf. cbn. rewrite IH. cbn.
    rewrite <- !app_assoc. reflexivity.
Qed.

(** The traversal hands every model to the visitor once, in the iteration
    order of the node collection, and never enters the [while] loop. *)
Lemma traversal_follows_collection_order (fuel : nat) (s : FlowScene.t) :
  iterate_over_node_data_dependent_order fuel s
  = Some (Ok (mkTraversal (Dict.keys (_nodes s)) (Dict.keys (_nodes s)) 0)).
Proof.
  unfold iterate_over_node_data_dependent_order.
  rewrite leaf_pass_visits_all. cbn.
  assert (E : Nat.eqb (List.length (_nodes s))
                      (List.length (Dict.keys (_nodes s))) = true).
  { unfold Dict.keys. rewrite length_map. apply Nat.eqb_refl. }
  destruct fuel; cbn; rewrite E; reflexivity.
Qed.


(** C4.  On the chain Source -> Addition -> Display whose nodes were
    created in the order display, addition, source, the traversal returns
    (whatever the fuel) and has handed the models to the visitor in the
    order display, addition, source: the Display node is visited before
    the Addition node that feeds it, and the Addition node before its
    Source. *)
Theorem chain_is_visited_against_the_dependencies (fuel : nat) :
  fst Scenario.chain = Ok tt
  /\ map (fun c => (out_node c, in_node c)) (_connections (snd Scenario.chain))
     = [("source", "add"); ("add", "display")]
  /\ exists tr,
       iterate_over_node_data_dependent_order fuel (snd Scenario.chain)
       = Some (Ok tr)
       /\ visits tr = ["display"; "add"; "source"]
       /\ position "display" (visits tr) = Some 0
       /\ position "add" (visits tr) = Some 1
       /\ position "source" (visits tr) = Some 2.
Proof.
  split; [vm_compute; reflexivity|]. split; [vm_compute; reflexivity|].
  rewrite traversal_follows_collection_order.
  eexists. split; [reflexivity|]. vm_compute. repeat split.
Qed.







(** A scene with a cycle: an Addition node whose output feeds its own
    input. *)
Example traversal_on_a_cycle :
  let s := snd ((create_node "add" (Scenario.operation M_.AdditionModel) ;;
                 create_connection "add" 0%Z "add" 0%Z None) Scenario.empty) in
  map (fun c => (out_node c, in_node c)) (_connections s) = [("add", "add")]
  /\ iterate_over_node_data_dependent_order 0 s
     = Some (Ok (mkTraversal ["add"] ["add"] 0)).
Proof. vm_compute. split; reflexivity. Qed.

(** ** Saving and loading *)

(** [get_converter] never finds the converter a document names: when the
    document has a converter entry it answers [DefaultTypeConverter], and
    when it has none it raises. *)
Lemma get_converter_never_registered registry connection_json :
  match get_converter registry connection_json with
  | Ok found => found = Some DefaultTypeConverter
  | Raise e => e = TypeError \/ e = AttributeError
  end.
Proof.
  unfold get_converter.
  destruct (dict_get connection_json "converter") as [v|e] eqn:E; cbn.
  - destruct v; cbn; try reflexivity. left. reflexivity.
  - right. unfold dict_get in E. destruct connection_json; try (injection E as <-; reflexivity).
    destruct (assoc "converter" fields); discriminate.
Qed.

(** C2.  The scene with one source wired to one display saves to a
    document, and loading that document into an empty scene with the same
    registry raises TypeError at the connection: [get_converter] subscripts
    the missing converter entry.  The loaded scene is left with the two
    nodes and without the connection. *)
Theorem loading_a_saved_connection_raises :
  List.length (_connections Scenario.pair) = 1
  /\ exists doc,
       save_to_memory Scenario.pair = Ok doc
       /\ fst (load_from_memory Scenario.env doc Scenario.empty) = Raise TypeError
       /\ Dict.keys (_nodes (snd (load_from_memory Scenario.env doc Scenario.empty)))
          = ["source"; "display"]
       /\ _connections (snd (load_from_memory Scenario.env doc Scenario.empty)) = [].
Proof.
  split; [vm_compute; reflexivity|].
  eexists. split; [vm_compute; reflexivity|].
  vm_compute. repeat split.
Qed.

(** A connection saved with a converter entry comes back with
    [DefaultTypeConverter] in place of the registered converter. *)
Example converter_entry_is_dropped :
  let c := mkConnection 0 "display" 0%Z "source" 0%Z
             (Some (Registered IntegerData_data_type DecimalData_data_type
                               decimal_to_integer)) in
  get_converter main_registry (connection_save c) = Ok (Some DefaultTypeConverter).
Proof. vm_compute. reflexivity. Qed.

(** ** Removing connections *)

Lemma same_connection_sym a b : same_connection a b = same_connection b a.
Proof. apply Nat.eqb_sym. Qed.

Lemma list_remove_contained c l :
  contains c l = true -> exists rest, list_remove c l = Ok rest.
Proof.
  unfold contains. induction l as [|x l IH]; cbn; [discriminate|].
  rewrite (same_connection_sym x c).
  destruct (same_connection c x); cbn.
  - intros _. eexists. reflexivity.
  - intro H. destruct (IH H) as [rest ->]. eexists. reflexivity.
Qed.

Lemma lookup_set_same k v d : Dict.lookup k (Dict.set k v d) = Some v.
Proof.
  unfold Dict.lookup. induction d as [|[k' v'] rest IH]; cbn.
  - rewrite String.eqb_refl. reflexivity.
  - destruct (String.eqb k k') eqn:E; cbn.
    + rewrite String.eqb_refl. reflexivity.
    + rewrite E. exact IH.
Qed.

Lemma lookup_set_other k k' v d :
  String.eqb k k' = false -> Dict.lookup k (Dict.set k' v d) = Dict.lookup k d.
Proof.
  unfold Dict.lookup. intro N. induction d as [|[k2 v2] rest IH]; cbn.
  - rewrite N. reflexivity.
  - destruct (String.eqb k' k2) eqn:E; cbn.
    + apply String.eqb_eq in E. subst k2. rewrite N. reflexivity.
    + destruct (String.eqb k k2); [reflexivity | exact IH].
Qed.


Lemma erase_connection_keeps_model pt i c n :
  fst (Node.erase_connection pt i c n) = Ok tt
  /\ Node._model (snd (Node.erase_connection pt i c n)) = Node._model n.
Proof.
  unfold Node.erase_connection, Node.on_port.
  destruct (Node.port_at n pt i); [|split; reflexivity].
  destruct (Port.remove_connection c t0) as [[u|e] p']; cbn;
    [|split; reflexivity].
  destruct pt; split; reflexivity.
Qed.

Lemma detach_keeps_models uid pt i c s target m :
  model_at target s m ->
  fst (with_node_if_present uid (Node.erase_connection pt i c) s) = Ok tt
  /\ model_at target (snd (with_node_if_present uid (Node.erase_connection pt i c) s)) m.
Proof.
  intros (n & L & Hm). unfold with_node_if_present, with_node.
  destruct (Dict.lookup uid (_nodes s)) as [n0|] eqn:E.
  - destruct (erase_connection_keeps_model pt i c n0) as [R K].
    destruct (Node.erase_connection pt i c n0) as [r n0']. cbn in *.
    split; [exact R|]. unfold model_at. cbn.
    destruct (String.eqb target uid) eqn:T.
    + apply String.eqb_eq in T. subst uid. rewrite lookup_set_same.
      exists n0'. split; [reflexivity|]. rewrite K. congruence.
    + rewrite (lookup_set_other _ _ _ _ T). exists n. split; assumption.
  - split; [reflexivity|]. exists n. split; assumption.
Qed.

Lemma retract_sets_None uid i s m :
  model_at uid s m ->
  fst (with_node_if_present uid (Node.propagate_data None i) s)
  = fst (Model.set_in_data None i m)
  /\ model_at uid (snd (with_node_if_present uid (Node.propagate_data None i) s))
              (snd (Model.set_in_data None i m)).
Proof.
  intros (n & L & Hm). unfold with_node_if_present, with_node. rewrite L.
  unfold Node.propagate_data. rewrite Hm.
  destruct (Model.set_in_data None i m) as [r m']. cbn.
  split; [reflexivity|]. exists (Node.set_model m' n). cbn.
  rewrite lookup_set_same. split; reflexivity.
Qed.

Lemma remove_from_nodes_retracts c s m :
  model_at (in_node c) s m ->
  fst (remove_from_nodes c s) = fst (Model.set_in_data None (in_index c) m)
  /\ model_at (in_node c) (snd (remove_from_nodes c s))
              (snd (Model.set_in_data None (in_index c) m)).
Proof.
  intro H. unfold remove_from_nodes, bind.
  destruct (detach_keeps_models (in_node c) PortType_input (in_index c) c s _ _ H)
    as [R1 H1].
  destruct (with_node_if_present (in_node c)
              (Node.erase_connection PortType_input (in_index c) c) s) as [r1 s1].
  cbn in R1, H1. subst r1.
  destruct (detach_keeps_models (out_node c) PortType_output (out_index c) c s1 _ _ H1)
    as [R2 H2].
  destruct (with_node_if_present (out_node c)
              (Node.erase_connection PortType_output (out_index c) c) s1) as [r2 s2].
  cbn in R2, H2. subst r2. apply retract_sets_None. exact H2.
Qed.

(** Retraction at input 0 or 1 of a math node, and at any input of the
    other nodes, returns. *)
Lemma retraction_returns (i : PortIndex) (m : NodeDataModel) :
  i = 0%Z \/ i = 1%Z -> fst (Model.set_in_data None i m) = Ok tt.
Proof.
  intro Hi. destruct m as [x|x|x]; cbn; [|reflexivity|reflexivity].
  destruct (set_in_data_rejected None i x) as (m' & E & _).
  - destruct Hi as [-> | ->]; cbn.
    + reflexivity.
    + apply andb_false_r.
  - rewrite E. reflexivity.
Qed.

(** C9.  Removing a connection that is in the scene delivers None to the
    destination input: the model of the destination node becomes what
    [set_in_data(None, in_index)] makes of it.  When the destination is
    input 1 of a Division node, in whatever state a prior computation left
    it, the removal returns and the node's output is None and its validation
    state warning. *)
Theorem delete_connection_retracts
  (c : Connection) (s : FlowScene.t) (n : Node.t) :
  contains c (_connections s) = true ->
  Dict.lookup (in_node c) (_nodes s) = Some n ->
  let (r, s') := delete_connection c s in
  exists n',
    Dict.lookup (in_node c) (_nodes s') = Some n'
    /\ Node._model n' = snd (Model.set_in_data None (in_index c) (Node._model n))
    /\ (forall m, Node._model n = Math m ->
                  M_.cls m = M_.DivisionModel ->
                  in_index c = 1%Z ->
                  r = Ok tt
                  /\ Model.out_data (Node._model n') 0%Z = None
                  /\ Model.validation_state (Node._model n') = warning).
Proof.
  intros Hc Hl. unfold delete_connection, bind, get.
  destruct (list_remove_contained _ _ Hc) as [rest ->].
  cbn [set_connections modify].
  set (s1 := FlowScene.mk rest _ _ _ _).
  assert (H1 : model_at (in_node c) s1 (Node._model n))
    by (exists n; split; [exact Hl | reflexivity]).
  destruct (remove_from_nodes_retracts c s1 _ H1) as [R (n' & L' & M')].
  destruct (remove_from_nodes c s1) as [r s']. cbn in R, L', M'.
  exists n'. split; [exact L'|]. split; [exact M'|].
  intros m Hm _ Hi. rewrite M', Hm. rewrite R, Hm. cbn.
  destruct (set_in_data_rejected None (in_index c) m) as (m' & E & Hr & Hv & _).
  - rewrite Hi. cbn. apply andb_false_r.
  - rewrite E. cbn. repeat split; assumption.
Qed.

Lemma delete_connection_retracts_witness :
  let c := Scenario.divisor_connection in
  let s := snd (Scenario.binary M_.DivisionModel "5.0" "2.0") in
  exists n,
    Dict.lookup (in_node c) (_nodes s) = Some n
    /\ let (r, s') := delete_connection c s in
       exists n',
         Dict.lookup (in_node c) (_nodes s') = Some n'
         /\ Node._model n' = snd (Model.set_in_data None (in_index c) (Node._model n))
         /\ (forall m, Node._model n = Math m ->
                       M_.cls m = M_.DivisionModel ->
                       in_index c = 1%Z ->
                       r = Ok tt
                       /\ Model.out_data (Node._model n') 0%Z = None
                       /\ Model.validation_state (Node._model n') = warning).
Proof.
  intros c s. eexists. split.
  - vm_compute. reflexivity.
  - apply (delete_connection_retracts c s).
    + vm_compute. reflexivity.
    + vm_compute. reflexivity.
Defined.

(** A Division model that holds a quotient and is valid loses both when
    None arrives at input 1. *)
Example retraction_after_a_valid_quotient :
  let five := DecimalData (Scenario.decimal 5) in
  let two := DecimalData (Scenario.decimal 2) in
  let m := M_.mk M_.DivisionModel (Some five) (Some two)
             (Some (DecimalData (fdiv (Scenario.decimal 5) (Scenario.decimal 2))))
             valid "" [0%Z] in
  let m' := snd (M_.set_in_data None 1%Z m) in
  M_.out_data m' 0%Z = None /\ M_.validation_state m' = warning.
Proof. vm_compute. split; reflexivity. Qed.

(** ** Clearing and loading *)

Lemma detach_returns uid pt i c s :
  fst (with_node_if_present uid (Node.erase_connection pt i c) s) = Ok tt.
Proof.
  unfold with_node_if_present, with_node.
  destruct (Dict.lookup uid (_nodes s)) as [n0|]; [|reflexivity].
  destruct (erase_connection_keeps_model pt i c n0) as [R _].
  destruct (Node.erase_connection pt i c n0). exact R.
Qed.

Lemma remove_from_nodes_returns c s :
  ends_at_input c -> fst (remove_from_nodes c s) = Ok tt.
Proof.
  intro V. unfold remove_from_nodes, bind.
  pose proof (detach_returns (in_node c) PortType_input (in_index c) c s) as R1.
  destruct (with_node_if_present (in_node c)
              (Node.erase_connection PortType_input (in_index c) c) s) as [r1 s1].
  cbn in R1. subst r1.
  pose proof (detach_returns (out_node c) PortType_output (out_index c) c s1) as R2.
  destruct (with_node_if_present (out_node c)
              (Node.erase_connection PortType_output (out_index c) c) s1) as [r2 s2].
  cbn in R2. subst r2.
  unfold with_node_if_present, with_node.
  destruct (Dict.lookup (in_node c) (_nodes s2)) as [n|]; [|reflexivity].
  unfold Node.propagate_data.
  pose proof (retraction_returns (in_index c) (Node._model n) V) as R3.
  destruct (Model.set_in_data None (in_index c) (Node._model n)). exact R3.
Qed.

Lemma delete_first_connection c rest s :
  _connections s = c :: rest ->
  ends_at_input c ->
  exists s', delete_connection c s = (Ok tt, s')
             /\ _connections s' = rest
             /\ _registry s' = _registry s
             /\ Dict.keys (_nodes s') = Dict.keys (_nodes s).
Proof.
  intros E V. unfold delete_connection, bind, get. rewrite E. cbn [list_remove].
  unfold same_connection. rewrite Nat.eqb_refl. cbn [set_connections modify].
  set (s1 := FlowScene.mk rest _ _ _ _).
  pose proof (remove_from_nodes_returns c s1 V) as R.
  pose proof (framed_remove_from_nodes c s1) as (FR & FK & FC).
  destruct (remove_from_nodes c s1) as [r s']. cbn in *. subst r.
  exists s'. repeat split; assumption.
Qed.

Lemma clear_connections l : forall s,
  _connections s = l ->
  Forall ends_at_input l ->
  exists s', for_each l delete_connection s = (Ok tt, s')
             /\ _connections s' = []
             /\ _registry s' = _registry s
             /\ Dict.keys (_nodes s') = Dict.keys (_nodes s).
Proof.
  induction l as [|c rest IH]; intros s E V.
  - exists s. repeat split. exact E.
  - inversion V as [|? ? Vc Vrest]; subst.
    destruct (delete_first_connection c rest s E Vc) as (s1 & D & C1 & R1 & K1).
    destruct (IH s1 C1 Vrest) as (s2 & D2 & C2 & R2 & K2).
    exists s2. cbn. unfold bind. rewrite D. rewrite D2.
    repeat split; congruence.
Qed.

Lemma delete_connection_without_connections c s :
  _connections s = [] -> delete_connection c s = (Ok tt, s).
Proof.
  intro E. unfold delete_connection, bind, get. rewrite E. reflexivity.
Qed.

Lemma delete_all_without_connections l s :
  _connections s = [] -> for_each l delete_connection s = (Ok tt, s).
Proof.
  intro E. induction l as [|c rest IH]; cbn; [reflexivity|].
  unfold bind. rewrite (delete_connection_without_connections c s E). exact IH.
Qed.

Lemma remove_first_node k n rest s :
  _nodes s = (k, n) :: rest ->
  _connections s = [] ->
  exists s', remove_node k s = (Ok tt, s')
             /\ _nodes s' = rest
             /\ _connections s' = []
             /\ _registry s' = _registry s.
Proof.
  intros E C. unfold remove_node, bind. cbn [emit modify].
  unfold with_node, get. cbn [_nodes]. rewrite E. unfold Dict.lookup.
  cbn [assoc]. rewrite String.eqb_refl. cbn [Dict.set].
  rewrite String.eqb_refl.
  rewrite delete_all_without_connections by exact C.
  cbn. rewrite String.eqb_refl. cbn.
  eexists. repeat split. exact C.
Qed.

Lemma clear_nodes d : forall s,
  _nodes s = d ->
  _connections s = [] ->
  exists s', for_each (Dict.keys d) remove_node s = (Ok tt, s')
             /\ _nodes s' = []
             /\ _connections s' = []
             /\ _registry s' = _registry s.
Proof.
  induction d as [|[k n] rest IH]; intros s E C.
  - exists s. repeat split; assumption.
  - destruct (remove_first_node k n rest s E C) as (s1 & D & N1 & C1 & R1).
    destruct (IH s1 N1 C1) as (s2 & D2 & N2 & C2 & R2).
    exists s2. change (Dict.keys ((k, n) :: rest)) with (k :: Dict.keys rest).
    cbn [for_each]. unfold bind. rewrite D. rewrite D2.
    repeat split; congruence.
Qed.

(** [clear_scene] returns and leaves neither node nor connection. *)
Lemma clear_scene_empties s :
  wired_to_inputs s ->
  exists s', clear_scene s = (Ok tt, s')
             /\ _nodes s' = []
             /\ _connections s' = []
             /\ _registry s' = _registry s.
Proof.
  intro W. unfold clear_scene, bind, get.
  destruct (clear_connections (_connections s) s eq_refl W) as (s1 & D & C1 & R1 & _).
  rewrite D.
  destruct (clear_nodes (_nodes s1) s1 eq_refl C1) as (s2 & D2 & N2 & C2 & R2).
  rewrite D2. exists s2. repeat split; congruence.
Qed.









(** The same on a load that fails later: in a file whose document has two
    good node entries, a good connection entry and a connection entry that
    names a node the document does not have, the last makes [load] raise
    KeyError; the scene then holds the two nodes and the one connection of
    the document, and nothing of what it held before. *)
Example failed_load_keeps_what_it_restored :
  Dict.keys (_nodes Scenario.pair) = ["source"; "display"]
  /\ fst (load Scenario.env "dangling.flow" Scenario.pair) = Raise KeyError
  /\ Dict.keys (_nodes (snd (load Scenario.env "dangling.flow" Scenario.pair)))
     = ["x"; "y"]
  /\ map (fun c => (out_node c, in_node c))
         (_connections (snd (load Scenario.env "dangling.flow" Scenario.pair)))
     = [("x", "y")].
Proof. vm_compute. repeat split. Qed.

(** * Further properties *)

(** ** The calculator models, in general *)

(** X1.  Whatever datum arrives at whatever port of a math model in
    whatever state, [set_in_data] has one of two outcomes.  Either it
    returns, the model is in warning without a result and [data_updated] was
    emitted once for port 0; or both inputs now hold IntegerData and it
    raises TypeError, with the model left valid, its former result kept and
    nothing emitted.  It never stores a newly computed result, and never
    raises the RuntimeError of [_compute_lock]. *)
Theorem math_set_in_data_outcomes
  (data : option NodeData) (i : PortIndex) (m : M_.t) :
  let (r, m') := M_.set_in_data data i m in
  (r = Ok tt
   /\ M_._result m' = None
   /\ M_._validation_state m' = warning
   /\ M_.data_updated m' = (M_.data_updated m ++ [0%Z])%list)
  \/ (r = Raise TypeError
      /\ M_._result m' = M_._result m
      /\ M_._validation_state m' = valid
      /\ M_.data_updated m' = M_.data_updated m
      /\ exists a b, M_._number1 m' = Some (IntegerData a)
                     /\ M_._number2 m' = Some (IntegerData b)).
Proof.
  destruct m as [c n1 n2 res v msg log].
  unfold M_.set_in_data, bind.
  destruct (Z.eqb i 0); [| destruct (Z.eqb i 1)]; cbn.
  - destruct data as [[f|z]|], n2 as [[f2|z2]|], c; cbn;
      first [ left; repeat split; reflexivity
            | right; repeat split; eexists; eexists; split; reflexivity ].
  - destruct n1 as [[f1|z1]|], data as [[f|z]|], c; cbn;
      first [ left; repeat split; reflexivity
            | right; repeat split; eexists; eexists; split; reflexivity ].
  - destruct n1 as [[f1|z1]|], n2 as [[f2|z2]|], c; cbn;
      first [ left; repeat split; reflexivity
            | right; repeat split; eexists; eexists; split; reflexivity ].
Qed.

(** X2.  A display model shows a datum exactly when it is an IntegerData:
    then the label carries its text; for a DecimalData and for None the
    label is cleared.  The call never raises, and in every case
    [validation_state()], which the class inherits from [NodeDataModel],
    answers valid, whatever the model stored in [_validation_state]. *)
Theorem display_set_in_data_outcomes
  (data : option NodeData) (i : PortIndex) (m : NumberDisplayModel.t) :
  let (r, m') := NumberDisplayModel.set_in_data data i m in
  r = Ok tt
  /\ NumberDisplayModel._number m' = data
  /\ Model.validation_state (Display m') = valid
  /\ match data with
     | Some (IntegerData z) =>
         NumberDisplayModel._label m' = NumberAsText (IntegerData z)
         /\ NumberDisplayModel._validation_state m' = valid
     | _ =>
         NumberDisplayModel._label m' = Literal ""
         /\ NumberDisplayModel._validation_state m' = warning
     end.
Proof.
  destruct data as [[f|z]|]; cbn; repeat split.
Qed.

(** ** The converters, in general *)

(** X3.  On a finite decimal [decimal_to_integer_converter] returns an
    IntegerData that is the decimal truncated towards zero: the integer has
    the sign of the decimal, and its magnitude is the integer part of
    mantissa * 2 ^ exponent. *)
Theorem decimal_to_integer_truncates_towards_zero
  (s : bool) (m : positive) (e : Z) :
  exists z,
    decimal_to_integer_converter (Some (DecimalData (S754_finite s m e)))
    = Ok (IntegerData z)
    /\ (if s then z <= 0 else 0 <= z)%Z
    /\ (0 <= e -> Z.abs z = Zpos m * 2 ^ e)%Z
    /\ (e < 0 -> Z.abs z * 2 ^ (- e) <= Zpos m < (Z.abs z + 1) * 2 ^ (- e))%Z.
Proof.
  pose (a := match e with
             | Z0 => Zpos m
             | Zpos p => Z.shiftl (Zpos m) (Zpos p)
             | Zneg p => Z.shiftr (Zpos m) (Zpos p)
             end).
  assert (Ha : (0 <= a)%Z).
  { subst a. destruct e.
    - lia.
    - apply Z.shiftl_nonneg. lia.
    - apply Z.shiftr_nonneg. lia. }
  assert (Habs : Z.abs (if s then (- a)%Z else a) = a) by (destruct s; lia).
  exists (if s then (- a)%Z else a). split; [reflexivity|]. rewrite Habs.
  split; [destruct s; lia|]. split.
  - intro He. subst a. destruct e as [|p|p]; [cbn; lia | | lia].
    rewrite Z.shiftl_mul_pow2 by lia. reflexivity.
  - intro He. subst a. destruct e as [|p|p]; [lia | lia |].
    rewrite Z.shiftr_div_pow2 by lia.
    change (- Zneg p)%Z with (Zpos p).
    assert (Hp : (0 < 2 ^ Zpos p)%Z) by (apply Z.pow_pos_nonneg; lia).
    pose proof (Z.mul_div_le (Zpos m) (2 ^ Zpos p) Hp).
    pose proof (Z.mul_succ_div_gt (Zpos m) (2 ^ Zpos p) Hp).
    nia.
Qed.

(** X4.  [integer_to_decimal_converter] returns exactly on a DecimalData,
    which it hands back unchanged, and raises TypeError on every
    IntegerData; [decimal_to_integer_converter] returns an IntegerData
    exactly on a decimal that is zero or finite, raises OverflowError on an
    infinity, ValueError on a NaN and TypeError on every IntegerData.  Both
    raise AttributeError on None. *)
Theorem converters_domains (data : option NodeData) :
  integer_to_decimal_converter data
  = match data with
    | Some (DecimalData f) => Ok (DecimalData f)
    | Some (IntegerData _) => Raise TypeError
    | None => Raise AttributeError
    end
  /\ match data with
     | Some (DecimalData (S754_infinity _)) =>
         decimal_to_integer_converter data = Raise OverflowError
     | Some (DecimalData S754_nan) =>
         decimal_to_integer_converter data = Raise ValueError
     | Some (DecimalData _) =>
         exists z, decimal_to_integer_converter data = Ok (IntegerData z)
     | Some (IntegerData _) =>
         decimal_to_integer_converter data = Raise TypeError
     | None => decimal_to_integer_converter data = Raise AttributeError
     end.
Proof.
  destruct data as [[f|z]|]; split; try reflexivity.
  destruct f; try reflexivity; eexists; reflexivity.
Qed.

(** ** Saved state of the models *)

(** A number source as [__init__] leaves it is what [setText("0.0")] makes
    of a source without number whose line edit is empty. *)
Example number_source_is_initialised_by_its_slot :
  NumberSourceDataModel.setText Scenario.env "0.0"
    (NumberSourceDataModel.mk None "" [])
  = (Ok tt, NumberSourceDataModel.__init__).
Proof. vm_compute. reflexivity. Qed.

(** Restoring the number 2 into a fresh number source changes the text of
    its line edit, so the slot stores the number read back from the text and
    emits [data_updated]. *)
Example restore_runs_the_slot :
  NumberSourceDataModel.restore Scenario.env
    (JObj [("name", JStr "NumberSource"); ("number", JFloat (Scenario.decimal 2))])
    NumberSourceDataModel.__init__
  = (Ok tt,
     NumberSourceDataModel.mk (Some (DecimalData (Scenario.decimal 2))) "2"
       [0%Z; 0%Z]).
Proof. vm_compute. reflexivity. Qed.

(** X5.  [restore] of a model never raises, whatever the document: a
    number source swallows every exception of reading the number and is then
    left as it was, and the other models ignore the document. *)
Theorem model_restore_never_raises (env : Env) (doc : json) (m : NodeDataModel) :
  let (r, m') := Model.restore env doc m in
  r = Ok tt
  /\ Model.model_name m' = Model.model_name m
  /\ match m with
     | Source x =>
         forall e,
           bind_result (getitem doc "number")
                       (NumberSourceDataModel.float_of_json env) = Raise e ->
           m' = m
     | _ => m' = m
     end.
Proof.
  destruct m as [x|x|x]; cbn; try (repeat split; reflexivity).
  unfold NumberSourceDataModel.restore.
  destruct (bind_result (getitem doc "number")
                        (NumberSourceDataModel.float_of_json env)) as [value|e'].
  - unfold bind, modify, NumberSourceDataModel.setText.
    cbn [NumberSourceDataModel._line_edit].
    destruct (String.eqb (NumberSourceDataModel._line_edit x)
                         (format_g env value));
      (repeat split; intros e H; discriminate).
  - cbn. repeat split.
Qed.

(** ** Classes of node data models *)

Import ModelClass.

Lemma name_of_cons c bases :
  cls_name (c :: bases)
  = match own_name c with Some v => v | None => cls_name bases end.
Proof. reflexivity. Qed.

Lemma caption_of_cons c bases :
  cls_caption (c :: bases)
  = match own_caption c with Some v => v | None => cls_caption bases end.
Proof. reflexivity. Qed.

Lemma visible_of_cons c bases :
  cls_caption_visible (c :: bases)
  = match own_caption_visible c with
    | Some v => v
    | None => cls_caption_visible bases
    end.
Proof. reflexivity. Qed.

(** X6.  After [NodeDataModel.__init_subclass__] the name of the class is
    never None: a name the class body binds (other than None) is kept, and
    when the class and its bases have none the class gets its own
    [__name__].  When [caption_visible] is true of the class its caption is
    not None either. *)
Theorem model_class_is_named (cls : namespace) (bases : list namespace) :
  let cls' := ModelClass.__init_subclass__ cls bases in
  cls_name (cls' :: bases) <> VNone
  /\ (forall v, own_name cls = Some v -> v <> VNone -> cls_name (cls' :: bases) = v)
  /\ (cls_name (cls :: bases) = VNone ->
      cls_name (cls' :: bases) = VStr (__name__ cls))
  /\ (truthy (cls_caption_visible (cls' :: bases)) = true ->
      cls_caption (cls' :: bases) <> VNone).
Proof.
  destruct cls as [nm on oc ocv].
  unfold ModelClass.__init_subclass__.
  rewrite !name_of_cons, !caption_of_cons, !visible_of_cons.
  cbn [own_name own_caption own_caption_visible ModelClass.__name__].
  generalize (cls_name bases) as bn, (cls_caption bases) as bc,
             (cls_caption_visible bases) as bv.
  intros bn bc bv.
  destruct on as [[| | |]|]; [ | | | | destruct bn]; cbn;
    match goal with
    | |- context [if ?c then _ else _] => destruct c eqn:C
    end; cbn.
  all: repeat split; try discriminate; try congruence.
  all: try (intros v Hv Hn; injection Hv as <-; first [reflexivity | contradiction]).
  all: try (intros T; rewrite T, andb_true_r in C; intro Hc; rewrite Hc in C;
            discriminate).
Qed.

(** X7.  A class that binds no name and derives from a class that has one
    takes over the name of its base, not its own [__name__]: two such
    classes with the same bases are named alike. *)
Theorem model_class_inherits_name
  (cls other : namespace) (bases : list namespace) (inherited : string) :
  own_name cls = None ->
  own_name other = None ->
  cls_name bases = VStr inherited ->
  cls_name (ModelClass.__init_subclass__ cls bases :: bases) = VStr inherited
  /\ cls_name (ModelClass.__init_subclass__ other bases :: bases)
     = cls_name (ModelClass.__init_subclass__ cls bases :: bases).
Proof.
  assert (K : forall c, own_name c = None -> cls_name bases = VStr inherited ->
              cls_name (ModelClass.__init_subclass__ c bases :: bases) = VStr inherited).
  { intros c Hc Hb. unfold ModelClass.__init_subclass__.
    assert (N : cls_name (c :: bases) = VStr inherited)
      by (unfold cls_name in *; cbn; rewrite Hc; exact Hb).
    rewrite N. cbn [is_None].
    destruct (is_None (cls_caption (c :: bases))
              && truthy (cls_caption_visible (c :: bases)));
      unfold cls_name in *; cbn; rewrite Hc; exact Hb. }
  intros Hc Ho Hb. split.
  - apply K; assumption.
  - rewrite (K cls Hc Hb), (K other Ho Hb). reflexivity.
Qed.

Lemma model_class_inherits_name_witness :
  let bases := created [MathOperationDataModel_body] in
  let power := ModelClass.mk "PowerModel" None None None in
  let root := ModelClass.mk "RootModel" None None None in
  cls_name (ModelClass.__init_subclass__ power bases :: bases)
  = VStr "MathOperationDataModel"
  /\ cls_name (ModelClass.__init_subclass__ root bases :: bases)
     = cls_name (ModelClass.__init_subclass__ power bases :: bases).
Proof.
  intros bases power root.
  apply (model_class_inherits_name power root bases "MathOperationDataModel").
  - reflexivity.
  - reflexivity.
  - reflexivity.
Defined.

(** The classes of calculator.py: the display model gets its name as
    caption, the math base class is named after itself. *)
Example calculator_classes :
  cls_caption (created [NumberDisplayModel_body]) = VStr "NumberDisplay"
  /\ cls_name (created [MathOperationDataModel_body]) = VStr "MathOperationDataModel"
  /\ cls_name (created [MultiplicationModel_body; MathOperationDataModel_body])
     = VStr "Multiplication"
  /\ cls_caption (created [MultiplicationModel_body; MathOperationDataModel_body])
     = VMethod.
Proof. repeat split. Qed.

(** ** Ports *)

Lemma list_remove_last c l :
  contains c l = false -> list_remove c (l ++ [c]) = Ok l.
Proof.
  unfold contains. induction l as [|x l IH]; cbn.
  - intros _. unfold same_connection. rewrite Nat.eqb_refl. reflexivity.
  - rewrite (same_connection_sym x c).
    destruct (same_connection c x); cbn; [discriminate|].
    intro H. rewrite (IH H). reflexivity.
Qed.

Lemma contains_last c l : contains c (l ++ [c]) = true.
Proof.
  unfold contains. rewrite existsb_app. cbn.
  unfold same_connection. rewrite Nat.eqb_refl. apply orb_true_r.
Qed.

Lemma list_remove_absent c l :
  contains c l = false -> exists e, list_remove c l = Raise e.
Proof.
  unfold contains. induction l as [|x l IH]; cbn.
  - intros _. eexists. reflexivity.
  - rewrite (same_connection_sym x c).
    destruct (same_connection c x); cbn; [discriminate|].
    intro H. destruct (IH H) as [e ->]. eexists. reflexivity.
Qed.

Lemma list_remove_shortens c l rest :
  list_remove c l = Ok rest -> List.length l = S (List.length rest).
Proof.
  revert rest. induction l as [|x l IH]; cbn; intros rest H; [discriminate|].
  destruct (same_connection x c).
  - injection H as <-. reflexivity.
  - destruct (list_remove c l) as [r|e]; cbn in H; [|discriminate].
    injection H as <-. cbn. rewrite (IH r eq_refl). reflexivity.
Qed.

(** X8.  Adding to a port a connection it does not hold returns and
    appends it; removing the connection again gives back the port as it
    was, and adding it a second time raises ValueError and leaves the port
    alone. *)
Theorem port_add_then_remove (c : Connection) (p : Port.t) :
  contains c (Port._connections p) = false ->
  let (r, p1) := Port.add_connection c p in
  r = Ok tt
  /\ Port._connections p1 = (Port._connections p ++ [c])%list
  /\ Port.remove_connection c p1 = (Ok tt, p)
  /\ Port.add_connection c p1 = (Raise ValueError, p1).
Proof.
  intro H. destruct p as [pt i l]. cbn [Port._connections] in H.
  unfold Port.add_connection, Port.remove_connection, bind, get.
  cbn -[contains list_remove]. rewrite H. cbn -[contains list_remove].
  rewrite contains_last. rewrite (list_remove_last c l H).
  repeat split.
Qed.

Lemma port_add_then_remove_witness :
  let c := Scenario.divisor_connection in
  let p := Port.mk PortType_input 1%Z [] in
  let (r, p1) := Port.add_connection c p in
  r = Ok tt
  /\ Port._connections p1 = (Port._connections p ++ [c])%list
  /\ Port.remove_connection c p1 = (Ok tt, p)
  /\ Port.add_connection c p1 = (Raise ValueError, p1).
Proof.
  intros c p. apply (port_add_then_remove c p). reflexivity.
Defined.

(** X9.  [remove_connection] never raises and never touches the type or
    the index of the port.  A port that holds the connection holds one
    connection fewer afterwards; a port that does not hold it is left as it
    was. *)
Theorem port_remove_connection_outcomes (c : Connection) (p : Port.t) :
  let (r, p') := Port.remove_connection c p in
  r = Ok tt
  /\ Port.port_type p' = Port.port_type p
  /\ Port.index p' = Port.index p
  /\ if contains c (Port._connections p)
     then List.length (Port._connections p)
          = S (List.length (Port._connections p'))
     else p' = p.
Proof.
  destruct p as [pt i l]. unfold Port.remove_connection, bind, get.
  cbn -[contains list_remove].
  destruct (contains c l) eqn:H.
  - destruct (list_remove_contained c l H) as [rest E]. rewrite E. cbn.
    repeat split. apply (list_remove_shortens c l rest E).
  - destruct (list_remove_absent c l H) as [e E]. rewrite E. cbn.
    repeat split.
Qed.

(** X10.  The module-level [opposite_port] is an involution that sends
    [PortType.none] to itself, whereas [Port.__init__] raises KeyError for
    [PortType.none]; for the two other types it yields an empty port, whose
    [opposite_port] attribute agrees with the function and which can
    connect.  An input port can connect exactly as long as it holds no
    connection. *)
Theorem port_type_and_occupancy (port_type : PortType) (index : PortIndex) :
  opposite_port (opposite_port port_type) = port_type
  /\ match Port__init__ port_type index with
     | Ok (p, opposite) =>
         port_type <> PortType_none
         /\ opposite = opposite_port port_type
         /\ Port.port_type p = port_type
         /\ Port.index p = index
         /\ Port.can_connect p = Ok true
     | Raise e => port_type = PortType_none /\ e = KeyError
     end
  /\ (forall l, Port.can_connect (Port.mk PortType_input index l)
                = Ok (match l with [] => true | _ => false end)).
Proof.
  split; [destruct port_type; reflexivity|]. split.
  - destruct port_type; cbn; repeat split; discriminate.
  - intros [|x l]; reflexivity.
Qed.

(** ** Deleting, clearing and loading, in general *)

Lemma list_remove_keeps_distinct c l rest :
  NoDup (map conn_id l) -> list_remove c l = Ok rest ->
  NoDup (map conn_id rest)
  /\ contains c rest = false
  /\ (forall x, In x rest -> In x l).
Proof.
  revert rest. induction l as [|x l IH]; cbn; intros rest D H; [discriminate|].
  inversion D as [|? ? Hx Dl]; subst.
  destruct (same_connection x c) eqn:E.
  - injection H as <-. split; [exact Dl|]. split.
    + unfold same_connection in E. apply Nat.eqb_eq in E.
      unfold contains. apply not_true_is_false. intro K.
      apply existsb_exists in K. destruct K as (y & Hy & Ey).
      unfold same_connection in Ey. apply Nat.eqb_eq in Ey.
      apply Hx. rewrite E, Ey. apply in_map. exact Hy.
    + intros y Hy. right. exact Hy.
  - destruct (list_remove c l) as [r|e] eqn:R; cbn in H; [|discriminate].
    injection H as <-. destruct (IH r Dl eq_refl) as (D' & C' & S').
    split; [|split].
    + cbn. constructor; [|exact D'].
      intro K. apply Hx. apply in_map_iff in K. destruct K as (y & Ey & Hy).
      apply in_map_iff. exists y. split; [exact Ey | apply S'; exact Hy].
    + unfold contains in *. cbn. rewrite (same_connection_sym c x), E. exact C'.
    + intros y [Hy|Hy]; [left; exact Hy | right; apply S'; exact Hy].
Qed.

(** X11.  In a scene whose connections are distinct objects,
    [delete_connection] leaves the scene without the connection, so that
    deleting it a second time changes nothing and returns; deleting a
    connection the scene does not hold changes nothing in the first place
    (the ValueError of the list is swallowed). *)
Theorem delete_connection_is_idempotent (c : Connection) (s : FlowScene.t) :
  distinct_connections s ->
  let (r, s1) := delete_connection c s in
  contains c (_connections s1) = false
  /\ delete_connection c s1 = (Ok tt, s1)
  /\ (contains c (_connections s) = false -> r = Ok tt /\ s1 = s).
Proof.
  intro D. unfold delete_connection at 1. unfold bind at 1, get.
  destruct (contains c (_connections s)) eqn:H.
  - destruct (list_remove_contained _ _ H) as [rest E]. rewrite E.
    unfold bind. cbn [set_connections modify].
    set (s0 := FlowScene.mk rest _ _ _ _).
    pose proof (framed_remove_from_nodes c s0) as (_ & _ & FC).
    destruct (remove_from_nodes c s0) as [r s1]. cbn in FC.
    destruct (list_remove_keeps_distinct c _ rest D E) as (_ & C' & _).
    rewrite FC. split; [exact C'|]. split; [|discriminate].
    unfold delete_connection, bind, get. rewrite FC.
    destruct (list_remove_absent c rest C') as [e ->]. reflexivity.
  - destruct (list_remove_absent c _ H) as [e E]. rewrite E. cbn.
    split; [exact H|]. split.
    + unfold delete_connection, bind, get. rewrite E. reflexivity.
    + intros _. split; reflexivity.
Qed.

Lemma delete_connection_is_idempotent_witness :
  let (r, s1) := delete_connection Scenario.divisor_connection
                   (snd (Scenario.binary M_.DivisionModel "5.0" "2.0")) in
  contains Scenario.divisor_connection (_connections s1) = false
  /\ delete_connection Scenario.divisor_connection s1 = (Ok tt, s1)
  /\ (contains Scenario.divisor_connection
        (_connections (snd (Scenario.binary M_.DivisionModel "5.0" "2.0")))
      = false -> r = Ok tt
                 /\ s1 = snd (Scenario.binary M_.DivisionModel "5.0" "2.0")).
Proof.
  apply (delete_connection_is_idempotent Scenario.divisor_connection
           (snd (Scenario.binary M_.DivisionModel "5.0" "2.0"))).
  unfold distinct_connections. vm_compute.
  repeat constructor; cbn; intuition discriminate.
Defined.

(** X12.  [clear_scene] on a scene whose connections end at inputs 0 or 1
    returns and leaves neither node nor connection; the registry stays. *)
Theorem clear_scene_leaves_nothing (s : FlowScene.t) :
  wired_to_inputs s ->
  let (r, s') := clear_scene s in
  r = Ok tt
  /\ _nodes s' = []
  /\ _connections s' = []
  /\ _registry s' = _registry s.
Proof.
  intro W. destruct (clear_scene_empties s W) as (s' & E & N & C & R).
  rewrite E. repeat split; assumption.
Qed.

Lemma clear_scene_leaves_nothing_witness :
  let (r, s') := clear_scene (snd Scenario.chain) in
  r = Ok tt
  /\ _nodes s' = []
  /\ _connections s' = []
  /\ _registry s' = _registry (snd Scenario.chain).
Proof.
  apply (clear_scene_leaves_nothing (snd Scenario.chain)).
  unfold wired_to_inputs. vm_compute. repeat constructor.
Defined.

(** X13.  [load] with the name of a file that does not exist returns
    without an exception, and the scene has been cleared all the same. *)
Theorem load_of_a_missing_file_clears (env : Env) (file_name : string)
  (s : FlowScene.t) :
  wired_to_inputs s ->
  read_file env file_name = None ->
  let (r, s') := load env file_name s in
  r = Ok tt /\ _nodes s' = [] /\ _connections s' = [].
Proof.
  intros W F. unfold load, bind.
  destruct (clear_scene_empties s W) as (s' & E & N & C & R).
  rewrite E, F. cbn. repeat split; assumption.
Qed.

Lemma load_of_a_missing_file_clears_witness :
  let (r, s') := load Scenario.env "missing.flow" Scenario.pair in
  r = Ok tt /\ _nodes s' = [] /\ _connections s' = [].
Proof.
  apply (load_of_a_missing_file_clears Scenario.env "missing.flow" Scenario.pair).
  - unfold wired_to_inputs. vm_compute. repeat constructor.
  - reflexivity.
Defined.

(** X14.  The traversal in dependency order hands the models to the
    visitor in exactly the order in which [iterate_over_node_data] does, on
    every scene and with any fuel. *)
Theorem dependent_order_is_collection_order (fuel : nat) (s : FlowScene.t) :
  exists tr,
    iterate_over_node_data_dependent_order fuel s = Some (Ok tr)
    /\ visits tr = map fst (iterate_over_node_data s)
    /\ visited_nodes tr = visits tr.
Proof.
  rewrite traversal_follows_collection_order. eexists.
  split; [reflexivity|]. cbn. split; [|reflexivity].
  unfold iterate_over_node_data, Dict.keys. rewrite map_map. reflexivity.
Qed.

(** ** What loading adds *)

Lemma grows_refl s : grows s s.
Proof.
  split; [reflexivity|]. split; [apply incl_refl|].
  exists []. rewrite app_nil_r. reflexivity.
Qed.

Lemma grows_trans s1 s2 s3 : grows s1 s2 -> grows s2 s3 -> grows s1 s3.
Proof.
  intros (R1 & K1 & a1 & E1) (R2 & K2 & a2 & E2).
  split; [congruence|]. split; [eapply incl_tran; eassumption|].
  exists (a1 ++ a2)%list. rewrite E2, E1, app_assoc. reflexivity.
Qed.

Lemma frame_grows s s' : frame s s' -> grows s s'.
Proof.
  intros (R & K & C). split; [exact R|]. split.
  - rewrite K. apply incl_refl.
  - exists []. rewrite app_nil_r. exact C.
Qed.

Lemma growing_of_framed {A} (c : M FlowScene.t A) : framed c -> growing c.
Proof. intros H s. apply frame_grows, H. Qed.

Lemma growing_bind {A B} (c : M FlowScene.t A) (k : A -> M FlowScene.t B) :
  growing c -> (forall a, growing (k a)) -> growing (bind c k).
Proof.
  intros Hc Hk s. unfold bind. specialize (Hc s).
  destruct (c s) as [[a|e] s1]; cbn in *.
  - eapply grows_trans; [exact Hc | apply Hk].
  - exact Hc.
Qed.

Lemma growing_for_each {A} (l : list A) (body : A -> M FlowScene.t unit) :
  (forall a, growing (body a)) -> growing (for_each l body).
Proof.
  intro Hb. induction l as [|x rest IH]; cbn.
  - apply growing_of_framed, framed_ret.
  - apply growing_bind; [apply Hb | intros _; exact IH].
Qed.

Lemma keys_set_incl k v d : incl (Dict.keys d) (Dict.keys (Dict.set k v d)).
Proof.
  unfold Dict.keys. induction d as [|[k' v'] rest IH]; cbn.
  - intros x [].
  - destruct (String.eqb k k') eqn:E; cbn.
    + apply String.eqb_eq in E. subst. apply incl_refl.
    + intros x [H|H]; [left; exact H | right; apply IH; exact H].
Qed.

Lemma growing_restore_node env node_json : growing (restore_node env node_json).
Proof.
  intro s. unfold restore_node, bind, get, lift.
  destruct (restored env (_registry s) node_json) as [kn|e]; cbn.
  - split; [reflexivity|]. split; [apply keys_set_incl|].
    exists []. rewrite app_nil_r. reflexivity.
  - apply grows_refl.
Qed.

(** What [create_connection] returns and what it does to the collections
    of the scene. *)
Lemma create_connection_outcome node_in pin node_out pout conv s :
  let (r, s') := create_connection node_in pin node_out pout conv s in
  _registry s' = _registry s
  /\ Dict.keys (_nodes s') = Dict.keys (_nodes s)
  /\ match r with
     | Ok c => c = mkConnection (allocated s) node_in pin node_out pout conv
               /\ _connections s' = (_connections s ++ [c])%list
     | Raise _ => _connections s' = _connections s
     end.
Proof.
  unfold create_connection.
  set (connection := mkConnection (allocated s) node_in pin node_out pout conv).
  unfold bind at 1. cbn [allocate].
  set (s0 := FlowScene.mk _ _ _ _ _).
  assert (F0 : frame s s0) by (repeat split).
  fold connection.
  unfold bind at 1.
  destruct (with_node node_in _ s0) as [[u1|e1] s1] eqn:E1;
    pose proof (frame_trans _ _ _ F0
                  (framed_run _ _ _ _ (framed_with_node _ _) E1)) as F1.
  2:{ destruct F1 as (R & K & C). repeat split; assumption. }
  unfold bind at 1.
  destruct (with_node node_out _ s1) as [[u2|e2] s2] eqn:E2;
    pose proof (frame_trans _ _ _ F1
                  (framed_run _ _ _ _ (framed_with_node _ _) E2)) as F2.
  2:{ destruct F2 as (R & K & C). repeat split; assumption. }
  unfold bind at 1.
  destruct (on_data_updated node_out pout s2) as [[u3|e3] s3] eqn:E3;
    pose proof (frame_trans _ _ _ F2
                  (framed_run _ _ _ _ (framed_on_data_updated _ _) E3)) as F3.
  2:{ destruct F3 as (R & K & C). repeat split; assumption. }
  destruct F3 as (R & K & C). cbn. rewrite C. repeat split; assumption.
Qed.

Lemma growing_create_connection node_in pin node_out pout conv :
  growing (create_connection node_in pin node_out pout conv).
Proof.
  intro s. pose proof (create_connection_outcome node_in pin node_out pout conv s) as H.
  destruct (create_connection node_in pin node_out pout conv s) as [r s'].
  destruct H as (R & K & C). cbn. split; [exact R|]. split.
  - rewrite K. apply incl_refl.
  - destruct r as [c|e].
    + destruct C as [_ C]. exists [c]. exact C.
    + exists []. rewrite app_nil_r. exact C.
Qed.

Lemma growing_restore_connection connection_json :
  growing (restore_connection connection_json).
Proof.
  unfold restore_connection.
  repeat first
    [ apply growing_create_connection
    | apply growing_bind; [ first [ apply growing_of_framed, framed_lift
                                  | apply growing_of_framed, framed_with_node
                                  | apply growing_of_framed, framed_get ]
                          | intro ] ].
Qed.

(** X15.  [load_from_memory] only adds: whatever the document and whether
    it returns or raises, the registry is the same afterwards, every node
    key of the scene is still a key, and the connections of the scene are
    still there, as the first connections of the collection. *)
Theorem load_from_memory_only_adds (env : Env) (doc : json) (s : FlowScene.t) :
  let (r, s') := load_from_memory env doc s in
  _registry s' = _registry s
  /\ (forall k, In k (Dict.keys (_nodes s)) -> In k (Dict.keys (_nodes s')))
  /\ exists added, _connections s' = (_connections s ++ added)%list.
Proof.
  assert (G : growing (load_from_memory env doc)).
  { unfold load_from_memory.
    apply growing_bind; [apply growing_of_framed, framed_lift | intro d].
    apply growing_bind; [apply growing_of_framed, framed_lift | intro ns].
    apply growing_bind.
    - apply growing_for_each. intro n.
      apply growing_bind; [apply growing_restore_node | intro].
      apply growing_of_framed, framed_ret.
    - intros _.
      apply growing_bind; [apply growing_of_framed, framed_lift | intro cs].
      apply growing_for_each. intro c.
      apply growing_bind; [apply growing_restore_connection | intro].
      apply growing_of_framed, framed_ret. }
  specialize (G s). destruct (load_from_memory env doc s) as [r s'].
  destruct G as (R & K & C). repeat split; assumption.
Qed.

(** ** Restoring a connection *)

Lemma set_same k n d : Dict.lookup k d = Some n -> Dict.set k n d = d.
Proof.
  unfold Dict.lookup. induction d as [|[k' v'] rest IH]; cbn; [discriminate|].
  destruct (String.eqb k k') eqn:E.
  - intro H. injection H as <-. apply String.eqb_eq in E. subst. reflexivity.
  - intro H. rewrite (IH H). reflexivity.
Qed.

Lemma with_node_get k s :
  with_node k get s
  = match Dict.lookup k (_nodes s) with
    | Some n => (Ok n, s)
    | None => (Raise KeyError, s)
    end.
Proof.
  unfold with_node, get. destruct (Dict.lookup k (_nodes s)) as [n|] eqn:E.
  - rewrite (set_same k n _ E). destruct s; reflexivity.
  - reflexivity.
Qed.

(** X16.  A connection document that names, with well-formed fields, a
    node identifier the scene does not have makes [restore_connection]
    raise KeyError, and the scene is left exactly as it was. *)
Theorem restore_connection_unknown_node
  (connection_json : json) (node_in_id node_out_id : string)
  (port_index_in port_index_out : json) (s : FlowScene.t) :
  getitem connection_json "in_id" = Ok (JStr node_in_id) ->
  getitem connection_json "out_id" = Ok (JStr node_out_id) ->
  getitem connection_json "in_index" = Ok port_index_in ->
  getitem connection_json "out_index" = Ok port_index_out ->
  Dict.lookup node_in_id (_nodes s) = None
  \/ Dict.lookup node_out_id (_nodes s) = None ->
  restore_connection connection_json s = (Raise KeyError, s).
Proof.
  intros H1 H2 H3 H4 H. unfold restore_connection, bind, lift.
  rewrite H1. cbn [QUuid]. rewrite H2. cbn [QUuid]. rewrite H3, H4.
  rewrite with_node_get.
  destruct (Dict.lookup node_in_id (_nodes s)) as [n|] eqn:E; [|reflexivity].
  rewrite with_node_get.
  destruct H as [H|H]; [discriminate|]. rewrite H. reflexivity.
Qed.

Lemma restore_connection_unknown_node_witness :
  restore_connection dangling_connection_doc Scenario.pair
  = (Raise KeyError, Scenario.pair).
Proof.
  apply (restore_connection_unknown_node dangling_connection_doc
           "ghost" "source" (JInt 0) (JInt 0) Scenario.pair).
  - reflexivity.
  - reflexivity.
  - reflexivity.
  - reflexivity.
  - left. vm_compute. reflexivity.
Defined.

(** X17.  [restore_connection] never installs a registered converter: a
    connection it returns carries [DefaultTypeConverter], whatever the
    document says.  A document that has no converter entry (or a null one)
    is never restored: the call raises and leaves the scene exactly as it
    was. *)
Theorem restore_connection_converter (connection_json : json) (s : FlowScene.t) :
  let (r, s') := restore_connection connection_json s in
  (forall c, r = Ok c -> converter c = Some DefaultTypeConverter)
  /\ (dict_get connection_json "converter" = Ok JNull ->
      is_ok r = false /\ s' = s).
Proof.
  unfold restore_connection, bind, lift.
  destruct (getitem connection_json "in_id") as [i|e];
    [|split; [discriminate | intros _; split; reflexivity]].
  destruct (QUuid i) as [a|e];
    [|split; [discriminate | intros _; split; reflexivity]].
  destruct (getitem connection_json "out_id") as [o|e];
    [|split; [discriminate | intros _; split; reflexivity]].
  destruct (QUuid o) as [b|e];
    [|split; [discriminate | intros _; split; reflexivity]].
  destruct (getitem connection_json "in_index") as [x|e];
    [|split; [discriminate | intros _; split; reflexivity]].
  destruct (getitem connection_json "out_index") as [y|e];
    [|split; [discriminate | intros _; split; reflexivity]].
  rewrite with_node_get.
  destruct (Dict.lookup a (_nodes s)) as [na|];
    [|split; [discriminate | intros _; split; reflexivity]].
  rewrite with_node_get.
  destruct (Dict.lookup b (_nodes s)) as [nb|];
    [|split; [discriminate | intros _; split; reflexivity]].
  unfold get.
  pose proof (get_converter_never_registered (_registry s) connection_json) as G.
  destruct (get_converter (_registry s) connection_json) as [found|e] eqn:EG.
  - subst found.
    assert (N : dict_get connection_json "converter" <> Ok JNull).
    { intro K. unfold get_converter in EG. rewrite K in EG. cbn in EG.
      discriminate. }
    destruct (port_index_of x) as [pin|e];
      [|split; [discriminate | intro K; contradiction]].
    destruct (port_index_of y) as [pout|e];
      [|split; [discriminate | intro K; contradiction]].
    pose proof (create_connection_outcome a pin b pout
                  (Some DefaultTypeConverter) s) as O.
    destruct (create_connection a pin b pout (Some DefaultTypeConverter) s)
      as [[c|e] s'].
    + destruct O as (_ & _ & -> & _). split.
      * intros c Hc. injection Hc as <-. reflexivity.
      * intro K. contradiction.
    + split; [discriminate | intro K; contradiction].
  - split; [discriminate | intros _; split; reflexivity].
Qed.

(** ** Creating and removing, composed *)

Lemma set_fresh k v d :
  Dict.lookup k d = None -> Dict.set k v d = (d ++ [(k, v)])%list.
Proof.
  unfold Dict.lookup. induction d as [|[k' v'] rest IH]; cbn; [reflexivity|].
  destruct (String.eqb k k'); [discriminate|].
  intro H. rewrite (IH H). reflexivity.
Qed.

Lemma lookup_app_fresh k v d :
  Dict.lookup k d = None -> Dict.lookup k (d ++ [(k, v)])%list = Some v.
Proof.
  unfold Dict.lookup. induction d as [|[k' v'] rest IH]; cbn.
  - rewrite String.eqb_refl. reflexivity.
  - destruct (String.eqb k k'); [discriminate | exact IH].
Qed.

Lemma del_fresh k v d :
  Dict.lookup k d = None -> Dict.del k (d ++ [(k, v)])%list = Ok d.
Proof.
  unfold Dict.lookup. induction d as [|[k' v'] rest IH]; cbn.
  - rewrite String.eqb_refl. reflexivity.
  - destruct (String.eqb k k'); [discriminate|].
    intro H. rewrite (IH H). reflexivity.
Qed.

Lemma new_ports_are_empty pt n :
  flat_map Port.connections (Node.make_ports pt n) = [].
Proof.
  unfold Node.make_ports. induction (seq 0 (Z.to_nat n)) as [|i l IH]; cbn.
  - reflexivity.
  - exact IH.
Qed.

Lemma new_node_has_no_connection m : Node.all_connections (Node.__init__ m) = [].
Proof.
  unfold Node.all_connections, Node.__init__. cbn.
  rewrite !new_ports_are_empty. reflexivity.
Qed.

(** X18.  [create_node] with an identifier the scene does not have never
    raises and stores a node without connections under it; [remove_node] of
    that node then returns and gives back the node and connection
    collections as they were, the scene having emitted [node_created] and
    [node_deleted] for it. *)
Theorem create_then_remove_node (uid : Uuid) (m : NodeDataModel) (s : FlowScene.t) :
  Dict.lookup uid (_nodes s) = None ->
  let (r1, s1) := create_node uid m s in
  let (r2, s2) := remove_node uid s1 in
  r1 = Ok uid
  /\ Dict.lookup uid (_nodes s1) = Some (Node.__init__ m)
  /\ Node.all_connections (Node.__init__ m) = []
  /\ r2 = Ok tt
  /\ _nodes s2 = _nodes s
  /\ _connections s2 = _connections s
  /\ emitted s2 = (emitted s ++ [node_created uid; node_deleted uid])%list.
Proof.
  intro H. unfold create_node, bind, get. cbn [set_nodes emit modify ret].
  rewrite (set_fresh uid _ _ H).
  unfold remove_node, bind. cbn [emit modify].
  rewrite with_node_get. cbn [_nodes].
  rewrite (lookup_app_fresh uid _ _ H).
  rewrite new_node_has_no_connection. cbn [for_each ret get].
  unfold lift. cbn [_nodes]. rewrite (del_fresh uid _ _ H).
  cbn [set_nodes modify fst snd _nodes _connections emitted].
  rewrite <- app_assoc. repeat split.
Qed.

Lemma create_then_remove_node_witness :
  let (r1, s1) := create_node "extra" Scenario.display Scenario.pair in
  let (r2, s2) := remove_node "extra" s1 in
  r1 = Ok "extra"
  /\ Dict.lookup "extra" (_nodes s1) = Some (Node.__init__ Scenario.display)
  /\ Node.all_connections (Node.__init__ Scenario.display) = []
  /\ r2 = Ok tt
  /\ _nodes s2 = _nodes Scenario.pair
  /\ _connections s2 = _connections Scenario.pair
  /\ emitted s2
     = (emitted Scenario.pair ++ [node_created "extra"; node_deleted "extra"])%list.
Proof.
  apply (create_then_remove_node "extra" Scenario.display Scenario.pair).
  vm_compute. reflexivity.
Defined.

Lemma new_connection_not_contained s c :
  next_connection_is_new s -> conn_id c = allocated s ->
  contains c (_connections s) = false.
Proof.
  intros N E. unfold contains. apply not_true_is_false. intro K.
  apply existsb_exists in K. destruct K as (x & Hx & Ex).
  unfold same_connection in Ex. apply Nat.eqb_eq in Ex.
  apply (N x Hx). congruence.
Qed.

(** X19.  When [create_connection] returns, [delete_connection] of the
    connection it returned gives back the connection collection as it was
    before the two calls, with the node keys and the registry untouched;
    when [create_connection] raises, the collection is as it was already. *)
Theorem create_then_delete_connection
  (node_in : Uuid) (port_index_in : PortIndex)
  (node_out : Uuid) (port_index_out : PortIndex)
  (conv : option TypeConverter) (s : FlowScene.t) :
  next_connection_is_new s ->
  let (r, s1) := create_connection node_in port_index_in node_out port_index_out
                   conv s in
  match r with
  | Ok c =>
      In c (_connections s1)
      /\ _connections (snd (delete_connection c s1)) = _connections s
      /\ Dict.keys (_nodes (snd (delete_connection c s1))) = Dict.keys (_nodes s)
      /\ _registry (snd (delete_connection c s1)) = _registry s
  | Raise _ => _connections s1 = _connections s
  end.
Proof.
  intro N.
  pose proof (create_connection_outcome node_in port_index_in node_out
                port_index_out conv s) as O.
  destruct (create_connection node_in port_index_in node_out port_index_out conv s)
    as [[c|e] s1]; destruct O as (R & K & O); [|exact O].
  destruct O as [Ec C].
  assert (Hc : contains c (_connections s) = false)
    by (apply new_connection_not_contained; [exact N | rewrite Ec; reflexivity]).
  split; [rewrite C; apply in_or_app; right; left; reflexivity|].
  unfold delete_connection, bind, get. rewrite C.
  rewrite (list_remove_last c _ Hc). cbn [set_connections modify].
  set (s0 := FlowScene.mk (_connections s) _ _ _ _).
  pose proof (framed_remove_from_nodes c s0) as (FR & FK & FC).
  destruct (remove_from_nodes c s0) as [r2 s2].
  cbn [fst snd _connections _nodes _registry s0] in *.
  split; [exact FC|]. split; [rewrite FK; exact K | rewrite FR; exact R].
Qed.

Lemma create_then_delete_connection_witness :
  let (r, s1) := create_connection "display" 0%Z "source" 0%Z None Scenario.pair in
  match r with
  | Ok c =>
      In c (_connections s1)
      /\ _connections (snd (delete_connection c s1)) = _connections Scenario.pair
      /\ Dict.keys (_nodes (snd (delete_connection c s1)))
         = Dict.keys (_nodes Scenario.pair)
      /\ _registry (snd (delete_connection c s1)) = _registry Scenario.pair
  | Raise _ => _connections s1 = _connections Scenario.pair
  end.
Proof.
  apply (create_then_delete_connection "display" 0%Z "source" 0%Z None Scenario.pair).
  unfold next_connection_is_new. vm_compute.
  intros c [<-|[]]. discriminate.
Defined.

(** ** Removing a node *)

Lemma contains_subset c (l l' : list Connection) :
  (forall x, In x l' -> In x l) -> contains c l = false -> contains c l' = false.
Proof.
  intros S H. unfold contains in *. apply not_true_is_false. intro K.
  apply existsb_exists in K. destruct K as (x & Hx & Ex).
  assert (T : existsb (same_connection c) l = true)
    by (apply existsb_exists; exists x; split; [apply S; exact Hx | exact Ex]).
  congruence.
Qed.

Lemma delete_connection_step c t :
  distinct_connections t ->
  ends_at_input c ->
  exists t', delete_connection c t = (Ok tt, t')
             /\ distinct_connections t'
             /\ Dict.keys (_nodes t') = Dict.keys (_nodes t)
             /\ (forall x, In x (_connections t') -> In x (_connections t))
             /\ contains c (_connections t') = false.
Proof.
  intros D V. unfold delete_connection, bind, get.
  destruct (contains c (_connections t)) eqn:H.
  - destruct (list_remove_contained _ _ H) as [rest E]. rewrite E.
    cbn [set_connections modify].
    set (t0 := FlowScene.mk rest _ _ _ _).
    pose proof (remove_from_nodes_returns c t0 V) as R.
    pose proof (framed_remove_from_nodes c t0) as (_ & FK & FC).
    destruct (remove_from_nodes c t0) as [r t']. cbn [fst snd] in *. subst r.
    destruct (list_remove_keeps_distinct c _ rest D E) as (D' & C' & S').
    exists t'. unfold distinct_connections. rewrite FC. cbn [_connections t0].
    repeat split; try assumption.
  - destruct (list_remove_absent c _ H) as [e E]. rewrite E.
    exists t. repeat split; try assumption. intros x Hx. exact Hx.
Qed.

Lemma delete_connections_loop (l : list Connection) : forall t,
  distinct_connections t ->
  Forall ends_at_input l ->
  exists t', for_each l delete_connection t = (Ok tt, t')
             /\ distinct_connections t'
             /\ Dict.keys (_nodes t') = Dict.keys (_nodes t)
             /\ (forall x, In x (_connections t') -> In x (_connections t))
             /\ (forall c, In c l -> contains c (_connections t') = false).
Proof.
  induction l as [|c rest IH]; intros t D V.
  - exists t. repeat split; try assumption.
    + intros x Hx. exact Hx.
    + intros c [].
  - inversion V as [|? ? Vc Vrest]; subst.
    destruct (delete_connection_step c t D Vc) as (t1 & E1 & D1 & K1 & S1 & C1).
    destruct (IH t1 D1 Vrest) as (t2 & E2 & D2 & K2 & S2 & C2).
    exists t2. cbn [for_each]. unfold bind. rewrite E1, E2.
    repeat split; try assumption.
    + congruence.
    + intros x Hx. apply S1, S2, Hx.
    + intros c0 [Heq|H0].
      * subst c0. apply (contains_subset c _ _ S2 C1).
      * apply C2, H0.
Qed.

Lemma lookup_in_keys k n d : Dict.lookup k d = Some n -> In k (Dict.keys d).
Proof.
  unfold Dict.lookup, Dict.keys. induction d as [|[k' v'] rest IH]; cbn;
    [discriminate|].
  destruct (String.eqb k k') eqn:E.
  - intros _. left. apply String.eqb_eq in E. congruence.
  - intro H. right. apply IH, H.
Qed.

Lemma lookup_not_in_keys k d : ~ In k (Dict.keys d) -> Dict.lookup k d = None.
Proof.
  intro H. destruct (Dict.lookup k d) as [n|] eqn:E; [|reflexivity].
  exfalso. apply H. eapply lookup_in_keys, E.
Qed.

Lemma del_present k d :
  In k (Dict.keys d) -> NoDup (Dict.keys d) ->
  exists d', Dict.del k d = Ok d' /\ Dict.lookup k d' = None.
Proof.
  unfold Dict.keys. induction d as [|[k' v'] rest IH]; cbn; intros I D; [destruct I|].
  inversion D as [|? ? Hk Dr]; subst.
  destruct (String.eqb k k') eqn:E.
  - apply String.eqb_eq in E. subst k'. exists rest. split; [reflexivity|].
    apply lookup_not_in_keys. exact Hk.
  - destruct I as [I|I]; [subst; rewrite String.eqb_refl in E; discriminate|].
    destruct (IH I Dr) as (d' & Ed & Ld). rewrite Ed. cbn.
    exists ((k', v') :: d'). split; [reflexivity|].
    unfold Dict.lookup in *. cbn. rewrite E. exact Ld.
Qed.

(** X20.  [remove_node] cascades.  In a scene with distinct keys and
    distinct connection objects, for a node whose ports hold the connections
    of the scene that touch it, [remove_node] returns, the node is no longer
    in the scene, and every connection left in the scene was there before
    and touches the node neither as source nor as destination. *)
Theorem remove_node_cascades (s : FlowScene.t) (node : Uuid) (n : Node.t) :
  distinct_keys s ->
  distinct_connections s ->
  node_in_scene s node n ->
  let (r, s') := remove_node node s in
  r = Ok tt
  /\ Dict.lookup node (_nodes s') = None
  /\ (forall x, In x (_connections s') ->
        In x (_connections s) /\ in_node x <> node /\ out_node x <> node).
Proof.
  intros DK DC (L & V & A). unfold remove_node, bind. cbn [emit modify].
  rewrite with_node_get. cbn [_nodes]. rewrite L.
  set (s0 := FlowScene.mk _ _ _ _ _).
  destruct (delete_connections_loop (Node.all_connections n) s0 DC V)
    as (t & E & Dt & Kt & St & Ct).
  rewrite E. unfold get, lift.
  assert (Hk : In node (Dict.keys (_nodes t)))
    by (rewrite Kt; eapply lookup_in_keys, L).
  assert (ND : NoDup (Dict.keys (_nodes t))) by (rewrite Kt; exact DK).
  destruct (del_present node (_nodes t) Hk ND) as (d' & Ed & Ld).
  rewrite Ed. cbn. split; [reflexivity|]. split; [exact Ld|].
  intros x Hx. pose proof (St x Hx) as Hs. cbn in Hs. split; [exact Hs|].
  assert (T : in_node x = node \/ out_node x = node -> False).
  { intro Touch. pose proof (A x Hs Touch) as Hc.
    unfold contains in Hc. apply existsb_exists in Hc.
    destruct Hc as (c & Hin & Ec).
    pose proof (Ct c Hin) as Cf. unfold contains in Cf.
    assert (Tt : existsb (same_connection c) (_connections t) = true).
    { apply existsb_exists. exists x. split; [exact Hx|].
      rewrite same_connection_sym. exact Ec. }
    congruence. }
  split; intro K; apply T; [left | right]; exact K.
Qed.

Lemma remove_node_cascades_witness :
  let (r, s') := remove_node "display" Scenario.pair in
  r = Ok tt
  /\ Dict.lookup "display" (_nodes s') = None
  /\ (forall x, In x (_connections s') ->
        In x (_connections Scenario.pair)
        /\ in_node x <> "display" /\ out_node x <> "display").
Proof.
  eapply (remove_node_cascades Scenario.pair "display" _).
  - unfold distinct_keys. vm_compute.
    repeat constructor; cbn; intuition discriminate.
  - unfold distinct_connections. vm_compute.
    repeat constructor; cbn; intuition discriminate.
  - split; [vm_compute; reflexivity|]. split.
    + vm_compute. repeat constructor.
    + vm_compute. intros x [<-|[]] _. reflexivity.
Defined.

(** ** Saving and loading nodes *)

Lemma restore_returns env doc m :
  fst (Model.restore env doc m) = Ok tt
  /\ Model.model_name (snd (Model.restore env doc m)) = Model.model_name m.
Proof.
  destruct m as [x|x|x]; cbn; try (split; reflexivity).
  unfold NumberSourceDataModel.restore.
  destruct (bind_result (getitem doc "number")
                        (NumberSourceDataModel.float_of_json env)) as [value|e].
  - unfold bind, modify, NumberSourceDataModel.setText.
    cbn [NumberSourceDataModel._line_edit].
    destruct (String.eqb (NumberSourceDataModel._line_edit x)
                         (format_g env value)); split; reflexivity.
  - split; reflexivity.
Qed.

Lemma node_round_trip env k n j :
  node_save k n = Ok j ->
  exists n', restored env main_registry j = Ok (k, n')
             /\ Model.model_name (Node._model n') = Model.model_name (Node._model n)
             /\ Node._position n' = Node._position n.
Proof.
  destruct n as [m [x y] pin pout]. unfold node_save. cbn [Node._model Node._position fst snd].
  destruct m as [a|a|a].
  - destruct a as [c n1 n2 r v msg log]. destruct c; cbn; intro H;
      injection H as <-; eexists; split; try reflexivity; split; reflexivity.
  - destruct a as [[[f|z]|] te log]; cbn; intro H; try discriminate;
      injection H as <-; cbn -[Model.restore];
      match goal with
      | |- context [Model.restore env ?d ?m0] =>
          pose proof (restore_returns env d m0) as [Hr Hn];
          destruct (Model.restore env d m0) as [r m']
      end;
      cbn [fst snd] in Hr, Hn; subst r;
      eexists; (split; [reflexivity|]); (split; [exact Hn | reflexivity]).
  - cbn. intro H. injection H as <-.
    eexists. split; [reflexivity|]. split; reflexivity.
Qed.

Lemma keys_of_outline d : Dict.keys d = map (fun e => fst (fst e)) (outline d).
Proof.
  unfold Dict.keys, outline. rewrite map_map. reflexivity.
Qed.

Lemma restore_saved_nodes env (d : Dict.t) : forall js t done,
  save_nodes d = Ok js ->
  _registry t = main_registry ->
  _connections t = [] ->
  outline (_nodes t) = outline done ->
  NoDup (Dict.keys (done ++ d)%list) ->
  exists t', for_each js (fun node => restore_node env node ;; ret tt) t = (Ok tt, t')
             /\ _registry t' = main_registry
             /\ _connections t' = []
             /\ outline (_nodes t') = outline (done ++ d)%list.
Proof.
  induction d as [|[k n] rest IH]; intros js t done S R C O D.
  - cbn in S. injection S as <-. exists t. rewrite app_nil_r.
    repeat split; assumption.
  - cbn [save_nodes] in S.
    destruct (node_save k n) as [j|e] eqn:Ej; cbn in S; [|discriminate].
    destruct (save_nodes rest) as [js'|e] eqn:Er; cbn in S; [|discriminate].
    injection S as <-.
    destruct (node_round_trip env k n j Ej) as (n' & Rn & Nn & Pn).
    assert (Hk : Dict.lookup k (_nodes t) = None).
    { apply lookup_not_in_keys. rewrite keys_of_outline, O, <- keys_of_outline.
      unfold Dict.keys in D. rewrite map_app in D. cbn in D.
      apply NoDup_remove_2 in D. intro K. apply D. apply in_or_app. left. exact K. }
    cbn [for_each]. unfold bind at 1. unfold bind at 1.
    unfold restore_node at 1. unfold bind at 1, get. unfold bind at 1, lift.
    rewrite R, Rn. cbn [fst snd]. unfold bind at 1. cbn [set_nodes modify].
    unfold bind at 1. cbn [emit modify]. cbn [ret].
    rewrite (set_fresh k n' _ Hk).
    set (t1 := FlowScene.mk _ _ _ _ _).
    assert (O1 : outline (_nodes t1) = outline (done ++ [(k, n)])%list).
    { cbn [_nodes t1]. unfold outline in *. rewrite !map_app, O. cbn.
      rewrite Nn, Pn. reflexivity. }
    assert (D1 : NoDup (Dict.keys ((done ++ [(k, n)]) ++ rest)%list))
      by (rewrite <- app_assoc; exact D).
    destruct (IH js' t1 (done ++ [(k, n)])%list eq_refl R C O1 D1)
      as (t' & E' & R' & C' & O').
    exists t'. rewrite E'. rewrite <- app_assoc in O'.
    repeat split; assumption.
Qed.

(** X21.  A scene without connections whose nodes have distinct
    identifiers round-trips through its document: when [save_to_memory]
    returns, [load_from_memory] of the document into an empty scene with the
    registry of [main] returns, creates no connection, and yields nodes with
    the same identifiers in the same order, each with the model name and the
    position it was saved with. *)
Theorem connection_free_scene_round_trips (env : Env) (s : FlowScene.t) (doc : json) :
  _connections s = [] ->
  distinct_keys s ->
  save_to_memory s = Ok doc ->
  let (r, s') := load_from_memory env doc (FlowScene.__init__ (Some main_registry)) in
  r = Ok tt
  /\ outline (_nodes s') = outline (_nodes s)
  /\ _connections s' = [].
Proof.
  intros C D S. unfold save_to_memory in S. rewrite C in S.
  destruct (save_nodes (_nodes s)) as [js|e] eqn:Ej; cbn in S; [|discriminate].
  injection S as <-.
  unfold load_from_memory, bind at 1, lift. unfold bind at 1.
  cbn [getitem assoc String.eqb Ascii.eqb Bool.eqb bind_result iterate].
  unfold bind at 1.
  destruct (restore_saved_nodes env (_nodes s) js
              (FlowScene.__init__ (Some main_registry)) [] Ej eq_refl eq_refl
              eq_refl D) as (t' & E' & R' & C' & O').
  rewrite E'. cbn. repeat split; assumption.
Qed.

Lemma connection_free_scene_round_trips_witness :
  exists doc,
    save_to_memory unwired_scene = Ok doc
    /\ let (r, s') := load_from_memory Scenario.env doc
                        (FlowScene.__init__ (Some main_registry)) in
       r = Ok tt
       /\ outline (_nodes s') = outline (_nodes unwired_scene)
       /\ _connections s' = [].
Proof.
  eexists. split.
  - vm_compute. reflexivity.
  - apply (connection_free_scene_round_trips Scenario.env unwired_scene).
    + vm_compute. reflexivity.
    + unfold distinct_keys. vm_compute.
      repeat constructor; cbn; intuition discriminate.
    + vm_compute. reflexivity.
Defined.

(** ** What creating a connection does to the ports and to the destination *)

Lemma nth_error_replace_nth {A} (i : nat) (x y : A) (l : list A) :
  nth_error l i = Some y -> nth_error (Node.replace_nth i x l) i = Some x.
Proof.
  revert i. induction l as [|z l IH]; intros [|i]; cbn; try discriminate.
  - reflexivity.
  - apply IH.
Qed.

Lemma set_connection_registers n pt i p c :
  pt <> PortType_none ->
  Node.port_at n pt i = Some p ->
  contains c (Port._connections p) = false ->
  exists n',
    Node.set_connection pt i c n = (Ok tt, n')
    /\ Node.port_at n' pt i
       = Some (Port.mk (Port.port_type p) (Port.index p)
                       (Port._connections p ++ [c]))
    /\ Node._model n' = Node._model n
    /\ (forall pt' j, pt' <> pt -> Node.port_at n' pt' j = Node.port_at n pt' j).
Proof.
  intros Hpt Hp Hc. unfold Node.set_connection, Node.on_port. rewrite Hp.
  unfold Port.add_connection, bind, get. rewrite Hc. cbn [modify].
  eexists. split; [reflexivity|].
  unfold Node.port_at in *. destruct (i <? 0)%Z; [discriminate|].
  destruct n as [m pos pin pout]. destruct pt; [contradiction | |]; cbn in *.
  - split; [eapply nth_error_replace_nth; exact Hp|]. split; [reflexivity|].
    intros pt' j H. destruct pt'; try reflexivity. contradiction.
  - split; [eapply nth_error_replace_nth; exact Hp|]. split; [reflexivity|].
    intros pt' j H. destruct pt'; try reflexivity. contradiction.
Qed.

Lemma not_held_when_new (held : list Connection) (c : Connection) (fresh : nat) :
  (forall x, In x held -> conn_id x <> fresh) -> conn_id c = fresh ->
  contains c held = false.
Proof.
  intros N E. unfold contains. apply not_true_is_false. intro K.
  apply existsb_exists in K. destruct K as (x & Hx & Ex).
  unfold same_connection in Ex. apply Nat.eqb_eq in Ex.
  apply (N x Hx). congruence.
Qed.

(** The two registrations at the beginning of [create_connection]. *)
Lemma registrations node_in pin node_out pout c s n_in n_out p_in p_out :
  Dict.lookup node_in (_nodes s) = Some n_in ->
  Node.port_at n_in PortType_input pin = Some p_in ->
  contains c (Port._connections p_in) = false ->
  Dict.lookup node_out (_nodes s) = Some n_out ->
  Node.port_at n_out PortType_output pout = Some p_out ->
  contains c (Port._connections p_out) = false ->
  exists s2 n2,
    (with_node node_in (Node.set_connection PortType_input pin c) ;;
     with_node node_out (Node.set_connection PortType_output pout c)) s
    = (Ok tt, s2)
    /\ frame s s2
    /\ emitted s2 = emitted s /\ allocated s2 = allocated s
    /\ held_by_port s2 node_in PortType_input pin c
    /\ held_by_port s2 node_out PortType_output pout c
    /\ model_at node_in s2 (Node._model n_in)
    /\ Dict.lookup node_out (_nodes s2) = Some n2
    /\ Node._model n2 = Node._model n_out
    /\ Node.connections n2 PortType_output pout
       = Some (Port._connections p_out ++ [c])%list.
Proof.
  intros Li Pi Ci Lo Po Co.
  destruct (set_connection_registers n_in PortType_input pin p_in c
              ltac:(discriminate) Pi Ci) as (n1 & S1 & P1 & M1 & O1).
  unfold bind. unfold with_node at 1. rewrite Li, S1.
  set (s1 := FlowScene.mk _ _ _ _ _).
  assert (F1 : frame s s1).
  { repeat split. cbn. eapply keys_set_present. exact Li. }
  assert (L1 : Dict.lookup node_in (_nodes s1) = Some n1)
    by (cbn; apply lookup_set_same).
  assert (Hout : exists n_out1,
             Dict.lookup node_out (_nodes s1) = Some n_out1
             /\ Node.port_at n_out1 PortType_output pout = Some p_out
             /\ Node._model n_out1 = Node._model n_out).
  { destruct (String.eqb node_out node_in) eqn:E.
    - apply String.eqb_eq in E. subst node_out. exists n1.
      split; [exact L1|]. rewrite Li in Lo. injection Lo as <-.
      split; [rewrite O1 by discriminate; exact Po | exact M1].
    - exists n_out. cbn. rewrite (lookup_set_other _ _ _ _ E).
      repeat split; assumption. }
  destruct Hout as (n_out1 & Lo1 & Po1 & Mo1).
  destruct (set_connection_registers n_out1 PortType_output pout p_out c
              ltac:(discriminate) Po1 Co) as (n2 & S2 & P2 & M2 & O2).
  unfold with_node. rewrite Lo1, S2.
  set (s2 := FlowScene.mk _ _ _ _ _).
  assert (L2 : Dict.lookup node_out (_nodes s2) = Some n2)
    by (cbn; apply lookup_set_same).
  exists s2, n2. split; [reflexivity|]. split.
  { eapply frame_trans; [exact F1|]. repeat split. cbn.
    eapply keys_set_present. exact Lo1. }
  split; [reflexivity|]. split; [reflexivity|].
  split.
  { destruct (String.eqb node_in node_out) eqn:E.
    - apply String.eqb_eq in E. subst node_out. exists n2. eexists.
      split; [exact L2|]. rewrite L1 in Lo1. injection Lo1 as <-.
      split; [rewrite O2 by discriminate; exact P1|]. cbn. apply contains_last.
    - exists n1. eexists. split; [cbn; rewrite (lookup_set_other _ _ _ _ E); exact L1|].
      split; [exact P1|]. cbn. apply contains_last. }
  split.
  { exists n2. eexists. split; [exact L2|]. split; [exact P2|].
    cbn. apply contains_last. }
  split.
  { destruct (String.eqb node_in node_out) eqn:E.
    - apply String.eqb_eq in E. subst node_out. exists n2.
      split; [exact L2|]. rewrite L1 in Lo1. injection Lo1 as <-.
      rewrite M2. exact M1.
    - exists n1. split; [cbn; rewrite (lookup_set_other _ _ _ _ E); exact L1|].
      exact M1. }
  split; [exact L2|]. split; [rewrite M2; exact Mo1|].
  unfold Node.connections. rewrite P2. reflexivity.
Qed.

Lemma keeps_ports_refl s : keeps_ports s s.
Proof. intros k n L. exists n. repeat split. exact L. Qed.

Lemma keeps_ports_trans s1 s2 s3 :
  keeps_ports s1 s2 -> keeps_ports s2 s3 -> keeps_ports s1 s3.
Proof.
  intros H1 H2 k n L. destruct (H1 k n L) as (n1 & L1 & I1 & O1).
  destruct (H2 k n1 L1) as (n2 & L2 & I2 & O2).
  exists n2. repeat split; congruence.
Qed.

Lemma delivery_keeps_ports uid data i s :
  keeps_ports s (snd (with_node uid (Node.propagate_data data i) s)).
Proof.
  unfold with_node. destruct (Dict.lookup uid (_nodes s)) as [n0|] eqn:E;
    [|apply keeps_ports_refl].
  unfold Node.propagate_data.
  destruct (Model.set_in_data data i (Node._model n0)) as [r m'].
  intros k n L. cbn [snd _nodes]. destruct (String.eqb k uid) eqn:K.
  - apply String.eqb_eq in K. subst k. rewrite lookup_set_same.
    eexists. split; [reflexivity|]. rewrite E in L. injection L as <-.
    split; reflexivity.
  - rewrite (lookup_set_other _ _ _ _ K). exists n. repeat split. exact L.
Qed.

Lemma propagation_keeps_ports (l : list Connection) data : forall s,
  keeps_ports s (snd (for_each l (fun c => propagate_data c data) s)).
Proof.
  induction l as [|c rest IH]; intro s; [apply keeps_ports_refl|].
  cbn [for_each]. unfold bind at 1.
  assert (H : keeps_ports s (snd (propagate_data c data s))).
  { unfold propagate_data, bind, lift.
    destruct (convert c data); [apply delivery_keeps_ports | apply keeps_ports_refl]. }
  destruct (propagate_data c data s) as [[u|e] s1]; cbn in H.
  - eapply keeps_ports_trans; [exact H | apply IH].
  - exact H.
Qed.

Lemma on_data_updated_keeps_ports node i s :
  keeps_ports s (snd (on_data_updated node i s)).
Proof.
  unfold on_data_updated, bind at 1. rewrite with_node_get.
  destruct (Dict.lookup node (_nodes s)) as [n|]; [|apply keeps_ports_refl].
  destruct (Node.connections n PortType_output i);
    [apply propagation_keeps_ports | apply keeps_ports_refl].
Qed.

Lemma held_by_port_kept s s' node pt i c :
  keeps_ports s s' -> held_by_port s node pt i c -> held_by_port s' node pt i c.
Proof.
  intros K (n & p & L & P & C). destruct (K node n L) as (n' & L' & I' & O').
  exists n', p. split; [exact L'|]. split; [|exact C].
  unfold Node.port_at, Node.entries in *.
  destruct pt; [exact P | rewrite I'; exact P | rewrite O'; exact P].
Qed.

(** X22.  When both ports exist and are free for it, [create_connection]
    registers the new connection on the input port and on the output port
    before it propagates: afterwards both ports hold it, whether the call
    returned or raised.  Only when the call returned is the connection also
    in the collection of the scene; when the propagation raised, the
    collection is as it was. *)
Theorem create_connection_registers_first
  (node_in : Uuid) (port_index_in : PortIndex)
  (node_out : Uuid) (port_index_out : PortIndex)
  (conv : option TypeConverter) (s : FlowScene.t)
  (n_in n_out : Node.t) (held_in held_out : list Connection) :
  port_ready s node_in n_in PortType_input port_index_in held_in ->
  port_ready s node_out n_out PortType_output port_index_out held_out ->
  let c := mkConnection (allocated s) node_in port_index_in node_out
             port_index_out conv in
  let (r, s') := create_connection node_in port_index_in node_out port_index_out
                   conv s in
  held_by_port s' node_in PortType_input port_index_in c
  /\ held_by_port s' node_out PortType_output port_index_out c
  /\ match r with
     | Ok c' => c' = c /\ In c (_connections s')
     | Raise _ => _connections s' = _connections s
     end.
Proof.
  intros (Li & (p_in & Pi & Hi) & Ni) (Lo & (p_out & Po & Ho) & No) c.
  assert (Ci : contains c (Port._connections p_in) = false)
    by (rewrite Hi; eapply not_held_when_new; [exact Ni | reflexivity]).
  assert (Co : contains c (Port._connections p_out) = false)
    by (rewrite Ho; eapply not_held_when_new; [exact No | reflexivity]).
  unfold create_connection. unfold bind at 1. cbn [allocate].
  set (s0 := FlowScene.mk _ _ _ _ _). fold c.
  destruct (registrations node_in port_index_in node_out port_index_out c s0
              n_in n_out p_in p_out Li Pi Ci Lo Po Co)
    as (s2 & n2 & E2 & F2 & _ & _ & Hin & Hout & _).
  unfold bind in E2.
  unfold bind at 1.
  destruct (with_node node_in (Node.set_connection PortType_input port_index_in c) s0)
    as [[u1|e1] s1]; [|discriminate].
  unfold bind at 1. rewrite E2. unfold bind at 1.
  pose proof (on_data_updated_keeps_ports node_out port_index_out s2) as K.
  pose proof (framed_on_data_updated node_out port_index_out s2) as (_ & _ & FC).
  destruct F2 as (_ & _ & FC2).
  destruct (on_data_updated node_out port_index_out s2) as [[u3|e3] s3];
    cbn [fst snd] in K, FC.
  - cbn. split; [eapply held_by_port_kept; [|exact Hin] |].
    { intros k n L. apply K. exact L. }
    split; [eapply held_by_port_kept; [|exact Hout] |].
    { intros k n L. apply K. exact L. }
    split; [reflexivity|]. apply in_or_app. right. left. reflexivity.
  - split; [eapply held_by_port_kept; eassumption|].
    split; [eapply held_by_port_kept; eassumption|].
    rewrite FC, FC2. reflexivity.
Qed.

Lemma create_connection_registers_first_witness :
  let c := mkConnection (allocated unwired_scene) "display" 0%Z "source" 0%Z None in
  let (r, s') := create_connection "display" 0%Z "source" 0%Z None unwired_scene in
  held_by_port s' "display" PortType_input 0%Z c
  /\ held_by_port s' "source" PortType_output 0%Z c
  /\ match r with
     | Ok c' => c' = c /\ In c (_connections s')
     | Raise _ => _connections s' = _connections unwired_scene
     end.
Proof.
  eapply (create_connection_registers_first "display" 0%Z "source" 0%Z None
            unwired_scene _ _ [] []).
  - split; [vm_compute; reflexivity|]. split.
    + eexists. split; vm_compute; reflexivity.
    + intros x [].
  - split; [vm_compute; reflexivity|]. split.
    + eexists. split; vm_compute; reflexivity.
    + intros x [].
Defined.

Lemma deliver_to_model uid v i s m :
  model_at uid s m ->
  fst (with_node uid (Node.propagate_data v i) s) = fst (Model.set_in_data v i m)
  /\ model_at uid (snd (with_node uid (Node.propagate_data v i) s))
              (snd (Model.set_in_data v i m)).
Proof.
  intros (n & L & Hm). unfold with_node. rewrite L.
  unfold Node.propagate_data. rewrite Hm.
  destruct (Model.set_in_data v i m) as [r m']. cbn [fst snd].
  split; [reflexivity|]. exists (Node.set_model m' n).
  cbn [_nodes]. rewrite lookup_set_same. split; reflexivity.
Qed.

(** X23.  A freshly wired edge is not stale.  When the input port is free
    and the output port holds no connection yet, [create_connection] reads
    the current output of the source port, passes it through the converter
    of the new connection and hands it to [set_in_data] of the destination
    model: afterwards the destination model is what that call makes of it,
    and [create_connection] returns the new connection exactly when that
    call returns, raising what it raises otherwise.  When the converter
    raises, [create_connection] raises the same and the destination model is
    untouched. *)
Theorem create_connection_delivers
  (node_in : Uuid) (port_index_in : PortIndex)
  (node_out : Uuid) (port_index_out : PortIndex)
  (conv : option TypeConverter) (s : FlowScene.t)
  (n_in n_out : Node.t) (held_in : list Connection) :
  port_ready s node_in n_in PortType_input port_index_in held_in ->
  port_ready s node_out n_out PortType_output port_index_out [] ->
  let c := mkConnection (allocated s) node_in port_index_in node_out
             port_index_out conv in
  let data := Model.out_data (Node._model n_out) port_index_out in
  let (r, s') := create_connection node_in port_index_in node_out port_index_out
                   conv s in
  match convert c data with
  | Raise e => r = Raise e /\ model_at node_in s' (Node._model n_in)
  | Ok v =>
      model_at node_in s'
        (snd (Model.set_in_data v port_index_in (Node._model n_in)))
      /\ match fst (Model.set_in_data v port_index_in (Node._model n_in)) with
         | Ok _ => r = Ok c
         | Raise e => r = Raise e
         end
  end.
Proof.
  intros (Li & (p_in & Pi & Hi) & Ni) (Lo & (p_out & Po & Ho) & No) c data.
  assert (Ci : contains c (Port._connections p_in) = false)
    by (rewrite Hi; eapply not_held_when_new; [exact Ni | reflexivity]).
  assert (Co : contains c (Port._connections p_out) = false)
    by (rewrite Ho; reflexivity).
  unfold create_connection. unfold bind at 1. cbn [allocate].
  set (s0 := FlowScene.mk _ _ _ _ _). fold c.
  destruct (registrations node_in port_index_in node_out port_index_out c s0
              n_in n_out p_in p_out Li Pi Ci Lo Po Co)
    as (s2 & n2 & E2 & _ & _ & _ & _ & _ & Min & L2 & M2 & C2).
  unfold bind in E2. unfold bind at 1.
  destruct (with_node node_in (Node.set_connection PortType_input port_index_in c) s0)
    as [[u1|e1] s1]; [|discriminate].
  unfold bind at 1. rewrite E2. unfold bind at 1.
  unfold on_data_updated, bind at 1. rewrite with_node_get, L2.
  rewrite C2, Ho, M2. fold data. cbn [app for_each].
  unfold bind at 1. unfold propagate_data at 1. unfold bind at 1, lift.
  destruct (convert c data) as [v|e].
  - change (in_node c) with node_in. change (in_index c) with port_index_in.
    destruct (deliver_to_model node_in v port_index_in s2 _ Min) as [R M].
    destruct (with_node node_in (Node.propagate_data v port_index_in) s2)
      as [r3 s3]. cbn [fst snd] in R, M. subst r3.
    destruct (fst (Model.set_in_data v port_index_in (Node._model n_in))) as [u|e].
    + cbn. split; [exact M | reflexivity].
    + split; [exact M | reflexivity].
  - split; [reflexivity | exact Min].
Qed.

Lemma create_connection_delivers_witness :
  let c := mkConnection (allocated unwired_scene) "display" 0%Z "source" 0%Z None in
  exists n_in n_out,
    Dict.lookup "display" (_nodes unwired_scene) = Some n_in
    /\ Dict.lookup "source" (_nodes unwired_scene) = Some n_out
    /\ let data := Model.out_data (Node._model n_out) 0%Z in
       let (r, s') := create_connection "display" 0%Z "source" 0%Z None
                        unwired_scene in
       match convert c data with
       | Raise e => r = Raise e /\ model_at "display" s' (Node._model n_in)
       | Ok v =>
           model_at "display" s'
             (snd (Model.set_in_data v 0%Z (Node._model n_in)))
           /\ match fst (Model.set_in_data v 0%Z (Node._model n_in)) with
              | Ok _ => r = Ok c
              | Raise e => r = Raise e
              end
       end.
Proof.
  intro c. eexists. eexists.
  split; [vm_compute; reflexivity|]. split; [vm_compute; reflexivity|].
  eapply (create_connection_delivers "display" 0%Z "source" 0%Z None
            unwired_scene _ _ []).
  - split; [vm_compute; reflexivity|]. split.
    + eexists. split; vm_compute; reflexivity.
    + intros x [].
  - split; [vm_compute; reflexivity|]. split.
    + eexists. split; vm_compute; reflexivity.
    + intros x [].
Defined.
